(** * SRM recruiting CRM: pipeline, payments, earnings report and CSV export

    A shallow embedding of the front end of the CRM (the [App] component with
    its form handlers, the [api] helper, the CSV export) together with the
    relational store described by [backend/schema.sql].  JavaScript numbers
    are IEEE-754 doubles and are modelled by Rocq's primitive binary64
    floats; JavaScript strings are modelled by [string]. *)

From Stdlib Require Import ZArith QArith Qabs Qround List String Ascii Floats.
From Stdlib Require Import Lia Bool DecimalString Sorting.Permutation Uint63.
Import ListNotations.
Set Warnings "-inexact-float".
Close Scope Q_scope.
Open Scope string_scope.

(** ** JavaScript numbers and their renderings *)

Module JS.

(** Decimal digits of a natural number, most significant first. *)
Definition digits_of_N (n : N) : string := NilZero.string_of_uint (N.to_uint n).
Definition digits_of_Z (z : Z) : string := digits_of_N (Z.to_N z).

Fixpoint repeat_char (c : ascii) (n : nat) : string :=
  match n with
  | O => ""
  | S n' => String c (repeat_char c n')
  end.

Definition take (n : nat) (s : string) : string :=
  string_of_list_ascii (firstn n (list_ascii_of_string s)).

Definition drop (n : nat) (s : string) : string :=
  string_of_list_ascii (skipn n (list_ascii_of_string s)).

(** The mathematical value of a finite double. *)
Definition exact (x : float) : Q :=
  match Prim2SF x with
  | S754_finite s m e =>
      let v := (inject_Z (Zpos m) * Qpower 2 e)%Q in
      if s then Qopp v else v
  | _ => 0%Q
  end.

Definition is_finite (x : float) : bool :=
  negb (PrimFloat.is_nan x || PrimFloat.is_infinity x).

Definition significand_even (x : float) : bool :=
  match Prim2SF x with
  | S754_finite _ m _ => Z.even (Zpos m)
  | _ => true
  end.

Definition Qlt_bool (a b : Q) : bool := negb (Qle_bool b a).

(** [rounds_to x q]: the real [q] converts to the positive finite double [x]
    under round-to-nearest, ties-to-even. *)
Definition rounds_to (x : float) (q : Q) : bool :=
  let v := exact x in
  let up := PrimFloat.next_up x in
  let hi := if PrimFloat.is_infinity up then Qpower 2 1024 else exact up in
  let lo := exact (PrimFloat.next_down x) in
  let a := Qred ((lo + v) / 2) in
  let b := Qred ((v + hi) / 2) in
  if significand_even x then Qle_bool a q && Qle_bool q b
  else Qlt_bool a q && Qlt_bool q b.

(** Least [p' >= p] with [v < 10^p']. *)
Fixpoint decimal_exponent (fuel : nat) (p : Z) (v : Q) : Z :=
  match fuel with
  | O => p
  | S fuel' =>
      if Qlt_bool v (Qpower 10 p) then p
      else decimal_exponent fuel' (p + 1)%Z v
  end.

(** A lower estimate of the decimal exponent from the binary one. *)
Definition exponent_estimate (x : float) : Z :=
  match Prim2SF x with
  | S754_finite _ m e => ((Z.log2 (Zpos m) + e) * 30103 / 100000 - 1)%Z
  | _ => 0%Z
  end.

Definition Qdist (a b : Q) : Q := Qabs (a - b).

(** The [k]-digit decimal [s * 10^(n-k)] that converts to [x], if there is
    one, as [(s, n)]; of two, the one closest to [x]. *)
Definition candidate (x : float) (p : Z) (k : Z) : option (Z * Z) :=
  let v := exact x in
  let scale := Qpower 10 (p - k) in
  let s0 := Qfloor (v / scale) in
  let s1 := (s0 + 1)%Z in
  let q0 := Qred (inject_Z s0 * scale) in
  let q1 := Qred (inject_Z s1 * scale) in
  let pick (s : Z) :=
    if (s =? 10 ^ k)%Z then Some ((10 ^ (k - 1))%Z, (p + 1)%Z) else Some (s, p) in
  match rounds_to x q0, rounds_to x q1 with
  | true, true =>
      match Qcompare (Qdist q0 v) (Qdist q1 v) with
      | Lt => pick s0
      | Gt => pick s1
      | Eq => if Z.even s0 then pick s0 else pick s1
      end
  | true, false => pick s0
  | false, true => pick s1
  | false, false => None
  end.

(** The shortest digit string: [(s, k, n)] with [k] digits in [s]. *)
Fixpoint shortest (fuel : nat) (x : float) (p : Z) (k : Z) : Z * Z * Z :=
  match fuel with
  | O => (0, 1, 0)%Z
  | S fuel' =>
      match candidate x p k with
      | Some (s, n) => (s, k, n)
      | None => shortest fuel' x p (k + 1)%Z
      end
  end.

(** [Number::toString(x, 10)] for a positive finite [x]. *)
Definition positiveToString (x : float) : string :=
  let p := decimal_exponent 8 (exponent_estimate x) (exact x) in
  let '(s, k, n) := shortest 17 x p 1 in
  let d := digits_of_Z s in
  if ((k <=? n) && (n <=? 21))%Z then d ++ repeat_char "0" (Z.to_nat (n - k))
  else if ((0 <? n) && (n <=? 21))%Z then
    take (Z.to_nat n) d ++ "." ++ drop (Z.to_nat n) d
  else if ((-6 <? n) && (n <=? 0))%Z then
    "0." ++ repeat_char "0" (Z.to_nat (- n)) ++ d
  else
    let e := (n - 1)%Z in
    let es := (if (e <? 0)%Z then "-" else "+") ++ digits_of_Z (Z.abs e) in
    if (k =? 1)%Z then d ++ "e" ++ es
    else take 1 d ++ "." ++ drop 1 d ++ "e" ++ es.

(** [String(x)] for a number, which is also how React renders a number
    child. *)
Definition numberToString (x : float) : string :=
  if PrimFloat.is_nan x then "NaN"
  else if PrimFloat.is_zero x then "0"
  else if PrimFloat.ltb x 0 then
    if PrimFloat.is_infinity x then "-Infinity"
    else "-" ++ positiveToString (PrimFloat.abs x)
  else if PrimFloat.is_infinity x then "Infinity"
  else positiveToString x.

(** The integer [n] for which [n / 10^f - q] is closest to zero, the larger
    one of two. *)
Definition round_half_up (q : Q) (f : nat) : N :=
  Z.to_N (Qfloor (q * inject_Z (10 ^ Z.of_nat f) + (1 # 2))).

(** Steps 10-11 of [Number.prototype.toFixed]: the digits of [n] with a
    point before the last [f] of them. *)
Definition fixed_digits (n : N) (f : nat) : string :=
  let m := digits_of_N n in
  match f with
  | O => m
  | S _ =>
      let k := String.length m in
      let m := if Nat.leb k f then repeat_char "0" (f + 1 - k) ++ m else m in
      let k := String.length m in
      take (k - f) m ++ "." ++ drop (k - f) m
  end.

(** [x.toFixed(f)] for [0 <= f <= 100]. *)
Definition toFixed (x : float) (f : nat) : string :=
  if negb (is_finite x) then numberToString x
  else
    let s := if PrimFloat.ltb x 0 then "-" else "" in
    let x := PrimFloat.abs x in
    if PrimFloat.leb 1e21 x then s ++ numberToString x
    else s ++ fixed_digits (round_half_up (exact x) f) f.

(** [s.replace(a, b)] for one-character strings [a] and [b]: only the first
    occurrence is replaced. *)
Fixpoint replace_first (a b : ascii) (s : string) : string :=
  match s with
  | "" => ""
  | String c s' =>
      if Ascii.eqb c a then String b s' else String c (replace_first a b s')
  end.

(** Truthiness of a number: [!x] holds for [0], [-0] and [NaN]. *)
Definition truthy_number (x : float) : bool :=
  negb (PrimFloat.is_zero x || PrimFloat.is_nan x).

(** Truthiness of a string. *)
Definition truthy_string (s : string) : bool :=
  match s with
  | "" => false
  | _ => true
  end.

End JS.

(** ** The CSV export *)

Module Csv.

Definition dquote : ascii := "034"%char.
Definition newline : ascii := "010"%char.
Definition semicolon : ascii := ";"%char.
Definition comma : ascii := ","%char.

(** The values found in the exported rows. *)
Inductive value : Type :=
  | VUndefined
  | VNull
  | VBool (b : bool)
  | VNumber (x : float)
  | VString (s : string)
  | VObject (text : string).  (* a function or an object, with the text
                                 [String] gives for it *)

(** [String(value)]. *)
Definition String_ (v : value) : string :=
  match v with
  | VUndefined => "undefined"
  | VNull => "null"
  | VBool true => "true"
  | VBool false => "false"
  | VNumber x => JS.numberToString x
  | VString s => s
  | VObject text => text
  end.

(** A row object: its own properties in [Object.keys] order.  The
    prototype of a row is [Object.prototype], whose members (constructor,
    toString, valueOf and the like) are given in the same way where a
    property is read. *)
Definition row : Type := list (string * value).

Definition keys (r : row) : list string := map fst r.

(** The own property [c] of an object. *)
Fixpoint own (r : row) (c : string) : option value :=
  match r with
  | [] => None
  | (k, v) :: r' => if String.eqb k c then Some v else own r' c
  end.

(** [r[c]]: the own property of the row, else the member of that name the
    row inherits from its prototype [proto], else [undefined]. *)
Definition get (proto r : row) (c : string) : value :=
  match own r c with
  | Some v => v
  | None =>
      match own proto c with
      | Some v => v
      | None => VUndefined
      end
  end.

(** [acc.has(key)]. *)
Definition mem (key : string) (acc : list string) : bool :=
  existsb (String.eqb key) acc.

(** [acc.add(key)] on a [Set], which iterates in insertion order. *)
Definition set_add (acc : list string) (key : string) : list string :=
  if mem key acc then acc else acc ++ [key].

(** 1) Collect columns. *)
Definition collect_columns (rows : list row) : list string :=
  fold_left (fun acc r => fold_left set_add (keys r) acc) rows [].

(** The test of the regular expression in [escape]: the string holds a
    double quote, a comma, a newline or a semicolon. *)
Definition special (c : ascii) : bool :=
  Ascii.eqb c dquote || Ascii.eqb c comma || Ascii.eqb c newline
  || Ascii.eqb c semicolon.

Fixpoint needs_quoting (str : string) : bool :=
  match str with
  | "" => false
  | String c str' => special c || needs_quoting str'
  end.

(** The global replace in [escape]: every double quote is doubled. *)
Fixpoint double_quotes (str : string) : string :=
  match str with
  | "" => ""
  | String c str' =>
      if Ascii.eqb c dquote then String dquote (String dquote (double_quotes str'))
      else String c (double_quotes str')
  end.

Definition quoted (str : string) : string :=
  String dquote (double_quotes str ++ String dquote "").

(** 2) Escape CSV values. *)
Definition escape (v : value) : string :=
  let str :=
    match v with
    | VUndefined | VNull => ""
    | _ => String_ v
    end in
  if needs_quoting str then quoted str else str.

Definition line (proto : row) (cols : list string) (r : row) : string :=
  String.concat ";" (map (fun c => escape (get proto r c)) cols).

(** 3) Build CSV: the text handed to the [Blob]; [proto] holds what the
    rows inherit. *)
Definition downloadCSV (proto : row) (rows : list row) : string :=
  let cols := collect_columns rows in
  String.concat (String newline "")
    (String.concat ";" cols :: map (line proto cols) rows).

(** *** Reading an export back *)

Inductive pstate : Type :=
  | FieldStart   (* nothing of the field read yet *)
  | InPlain      (* inside an unquoted field *)
  | InQuoted     (* inside a quoted field *)
  | QuoteSeen.   (* a quote met inside a quoted field *)

Definition push_char (c : ascii) (t : list (list string)) : list (list string) :=
  match t with
  | (f :: fs) :: rs => (String c f :: fs) :: rs
  | [] :: rs => [String c ""] :: rs
  | [] => [[String c ""]]
  end.

Definition end_field (t : list (list string)) : list (list string) :=
  match t with
  | fs :: rs => ("" :: fs) :: rs
  | [] => [[""]]
  end.

Definition end_record (t : list (list string)) : list (list string) :=
  [""] :: t.

(** Modelled from the spec: the repository has no CSV reader; this is the
    reader the round trip of the export is stated against.  Records are
    separated by newlines and fields by semicolons; a field that starts with
    a double quote runs to its closing quote, a doubled quote inside it
    standing for one quote character. *)
Fixpoint scan (st : pstate) (s : string) : list (list string) :=
  match s with
  | "" => [[""]]
  | String c s' =>
      match st with
      | FieldStart =>
          if Ascii.eqb c dquote then scan InQuoted s'
          else if Ascii.eqb c semicolon then end_field (scan FieldStart s')
          else if Ascii.eqb c newline then end_record (scan FieldStart s')
          else push_char c (scan InPlain s')
      | InPlain =>
          if Ascii.eqb c semicolon then end_field (scan FieldStart s')
          else if Ascii.eqb c newline then end_record (scan FieldStart s')
          else push_char c (scan InPlain s')
      | InQuoted =>
          if Ascii.eqb c dquote then scan QuoteSeen s'
          else push_char c (scan InQuoted s')
      | QuoteSeen =>
          if Ascii.eqb c dquote then push_char c (scan InQuoted s')
          else if Ascii.eqb c semicolon then end_field (scan FieldStart s')
          else if Ascii.eqb c newline then end_record (scan FieldStart s')
          else push_char c (scan InPlain s')
      end
  end.

Definition parse_csv (s : string) : list (list string) := scan FieldStart s.

(** What a record of fields reads back as: a record without fields is an
    empty line, which reads as one empty field. *)
Definition as_read (fields : list string) : list string :=
  match fields with
  | [] => [""]
  | _ => fields
  end.

(** A key that can stand in the header unescaped. *)
Fixpoint plain (s : string) : bool :=
  match s with
  | "" => true
  | String c s' =>
      negb (Ascii.eqb c dquote || Ascii.eqb c newline || Ascii.eqb c semicolon)
      && plain s'
  end.

(** [piece] is a way to write the field [v]: as it is when it is plain,
    or quoted. *)
Definition renders (piece v : string) : Prop :=
  (piece = v /\ plain v = true) \/ piece = quoted v.

(** The rest of the input starts with a separator or is empty. *)
Definition at_separator (rest : string) : Prop :=
  rest = "" \/ exists r, rest = String semicolon r \/ rest = String newline r.

(** The text of a value in the export, before escaping. *)
Definition text_of (v : value) : string :=
  match v with
  | VUndefined | VNull => ""
  | _ => String_ v
  end.

(** The union of the keys of the rows in first-encounter order, written as
    a specification: every key is kept at its first occurrence. *)
Fixpoint first_occurrences (l : list string) : list string :=
  match l with
  | [] => []
  | k :: l' => k :: filter (fun k' => negb (String.eqb k' k)) (first_occurrences l')
  end.


End Csv.

(** ** The relational store of [backend/schema.sql] *)

Module Store.

(** A calendar date ([DATE] columns; no time component). *)
Record Date : Type := mkDate { year : Z; month : Z; day : Z }.

Definition date_eqb (a b : Date) : bool :=
  ((year a =? year b) && (month a =? month b) && (day a =? day b))%Z.

(** Chronological order on dates. *)
Definition date_leb (a b : Date) : bool :=
  ((year a <? year b)
   || ((year a =? year b)
       && ((month a <? month b)
           || ((month a =? month b) && (day a <=? day b)))))%Z.

Inductive Status : Type := New | InProcess | Rejected | Hired.

Definition status_eqb (a b : Status) : bool :=
  match a, b with
  | New, New | InProcess, InProcess | Rejected, Rejected | Hired, Hired => true
  | _, _ => false
  end.

Record Client : Type := mkClient { c_id : Z; c_name : string }.

Record Recruiter : Type := mkRecruiter { r_id : Z; r_name : string }.

Record Candidate : Type := mkCandidate {
  cand_id : Z;
  cand_full_name : string;
  cand_phone : option string;
  cand_email : option string;
  cand_notes : option string
}.

Record Vacancy : Type := mkVacancy {
  v_id : Z;
  v_client_id : Z;
  v_title : string;
  v_fee_amount : float;
  v_city : option string
}.

Record Application : Type := mkApplication {
  a_id : Z;
  a_candidate_id : Z;
  a_vacancy_id : Z;
  a_recruiter_id : Z;
  a_date_contacted : Date;
  a_status : Status;
  a_rejection_date : option Date;
  a_start_date : option Date;
  a_paid : bool;
  a_paid_date : option Date;
  a_payment_amount : float;
  a_is_replacement : bool;
  a_replacement_of_id : option Z;
  a_replacement_note : option string;
  a_created_at : Z
}.

Record Payment : Type := mkPayment {
  p_id : Z;
  p_application_id : Z;
  p_paid_date : Date;
  p_amount : float;
  p_note : option string;
  p_created_at : Z
}.

(** The tables, the [SERIAL] sequences of the tables rows are inserted into
    here, and the clock behind [CURRENT_TIMESTAMP]. *)
Record DB : Type := mkDB {
  clients : list Client;
  recruiters : list Recruiter;
  candidates : list Candidate;
  vacancies : list Vacancy;
  applications : list Application;
  payments : list Payment;
  candidates_seq : Z;
  applications_seq : Z;
  payments_seq : Z;
  clock : Z
}.

Definition find_client (db : DB) (id : Z) : option Client :=
  find (fun c => (c_id c =? id)%Z) (clients db).

Definition find_recruiter (db : DB) (id : Z) : option Recruiter :=
  find (fun r => (r_id r =? id)%Z) (recruiters db).

Definition find_candidate (db : DB) (id : Z) : option Candidate :=
  find (fun c => (cand_id c =? id)%Z) (candidates db).

Definition find_vacancy (db : DB) (id : Z) : option Vacancy :=
  find (fun v => (v_id v =? id)%Z) (vacancies db).

Definition find_application (db : DB) (id : Z) : option Application :=
  find (fun a => (a_id a =? id)%Z) (applications db).

Definition is_some {A : Type} (o : option A) : bool :=
  match o with
  | Some _ => true
  | None => false
  end.

(** The [REFERENCES] clauses of [applications]. *)
Definition application_references_hold (db : DB) (a : Application) : bool :=
  is_some (find_candidate db (a_candidate_id a))
  && is_some (find_vacancy db (a_vacancy_id a))
  && is_some (find_recruiter db (a_recruiter_id a))
  && match a_replacement_of_id a with
     | Some id => is_some (find_application db id)
     | None => true
     end.

(** [INSERT INTO candidates]: the row gets the next id of the sequence. *)
Definition insert_candidate (db : DB) (full_name : string)
    (phone email notes : option string) : DB * Candidate :=
  let c := mkCandidate (candidates_seq db) full_name phone email notes in
  (mkDB (clients db) (recruiters db) (candidates db ++ [c]) (vacancies db)
        (applications db) (payments db)
        (candidates_seq db + 1) (applications_seq db) (payments_seq db)
        (clock db),
   c).

(** [INSERT INTO applications]: refused when a reference does not resolve;
    [mk] builds the row from its id and its creation time. *)
Definition insert_application (db : DB) (mk : Z -> Z -> Application)
    : option (DB * Application) :=
  let a := mk (applications_seq db) (clock db) in
  if application_references_hold db a then
    Some (mkDB (clients db) (recruiters db) (candidates db) (vacancies db)
               (applications db ++ [a]) (payments db)
               (candidates_seq db) (applications_seq db + 1) (payments_seq db)
               (clock db + 1),
          a)
  else None.

(** [UPDATE applications ... WHERE id = ...]. *)
Definition update_application (db : DB) (id : Z)
    (f : Application -> Application) : DB :=
  mkDB (clients db) (recruiters db) (candidates db) (vacancies db)
       (map (fun a => if (a_id a =? id)%Z then f a else a) (applications db))
       (payments db)
       (candidates_seq db) (applications_seq db) (payments_seq db) (clock db).

(** [INSERT INTO payments]: refused when the application does not exist. *)
Definition insert_payment (db : DB) (application_id : Z) (paid_date : Date)
    (amount : float) (note : option string) : option (DB * Payment) :=
  if is_some (find_application db application_id) then
    let p := mkPayment (payments_seq db) application_id paid_date amount note
                       (clock db) in
    Some (mkDB (clients db) (recruiters db) (candidates db) (vacancies db)
               (applications db) (payments db ++ [p])
               (candidates_seq db) (applications_seq db) (payments_seq db + 1)
               (clock db + 1),
          p)
  else None.

(** Every reference of every application, vacancy and payment resolves. *)
Definition references_resolve (db : DB) : bool :=
  forallb (application_references_hold db) (applications db)
  && forallb (fun v => is_some (find_client db (v_client_id v))) (vacancies db)
  && forallb (fun p => is_some (find_application db (p_application_id p)))
             (payments db).

(** Insertion sort by a total preorder given as a boolean test. *)
Fixpoint insert_by {A : Type} (le : A -> A -> bool) (x : A) (l : list A)
    : list A :=
  match l with
  | [] => [x]
  | y :: l' => if le x y then x :: l else y :: insert_by le x l'
  end.

Definition sort_by {A : Type} (le : A -> A -> bool) (l : list A) : list A :=
  fold_right (insert_by le) [] l.

End Store.

(** ** The server operations behind the [api] helper

    The operations the front end calls, over the store of
    [backend/schema.sql]. *)

Module Server.
Import Store.

(** The error taxonomy; every error reaches the caller as a description. *)
Inductive Error : Type :=
  | ValidationError (field : string)
  | NotFoundError
  | ReferentialIntegrityError
  | AuthorizationError.

Definition describe (e : Error) : string :=
  match e with
  | ValidationError field => "validation error: " ++ field
  | NotFoundError => "not found"
  | ReferentialIntegrityError => "referential integrity"
  | AuthorizationError => "not authorized"
  end.

(** The caller as the access boundary resolves it from the bearer token: an
    admin, or a user bound to one recruiter. *)
Inductive Caller : Type :=
  | Admin
  | User (recruiter : Z).

Record CandidateCreate : Type := mkCandidateCreate {
  cc_full_name : string;
  cc_phone : option string;
  cc_email : option string;
  cc_notes : option string
}.

Record ApplicationCreate : Type := mkApplicationCreate {
  ac_candidate_id : Z;
  ac_vacancy_id : Z;
  ac_recruiter_id : Z;
  ac_date_contacted : option Date;
  ac_status : Status;
  ac_rejection_date : option Date;
  ac_start_date : option Date;
  ac_paid : bool;
  ac_paid_date : option Date;
  ac_payment_amount : float;
  ac_is_replacement : bool;
  ac_replacement_of_id : option Z;
  ac_replacement_note : option string
}.

Record ApplicationUpdate : Type := mkApplicationUpdate {
  au_status : Status;
  au_date_contacted : option Date;
  au_rejection_date : option Date;
  au_start_date : option Date;
  au_is_replacement : bool;
  au_replacement_of_id : option Z;
  au_replacement_note : option string
}.

Record PaymentCreate : Type := mkPaymentCreate {
  pc_paid_date : option Date;
  pc_amount : float;
  pc_note : option string
}.

(** One denormalized row of the pipeline view, as the front end holds it; a
    date the user cleared in the edit form is [None]. *)
Record PipelineRow : Type := mkPipelineRow {
  row_id : Z;
  row_client_id : Z;
  row_recruiter_id : Z;
  row_candidate_name : string;
  row_client_name : string;
  row_vacancy_title : string;
  row_recruiter_name : string;
  row_date_contacted : option Date;
  row_status : Status;
  row_rejection_date : option Date;
  row_start_date : option Date;
  row_paid : bool;
  row_paid_date : option Date;
  row_payment_amount : float;
  row_is_replacement : bool;
  row_replacement_of_id : option Z;
  row_replacement_note : option string;
  row_created_at : Z
}.

Record PipelineQuery : Type := mkPipelineQuery {
  q_client_id : option Z;
  q_recruiter_id : option Z;
  q_status : option Status;
  q_search : option string
}.

Record ReportLine : Type := mkReportLine {
  l_paid_date : Date;
  l_amount : float;
  l_candidate_name : string;
  l_client_name : string;
  l_vacancy_title : string;
  l_recruiter_name : string;
  l_application_id : Z;
  l_payment_id : Z
}.


(** Modelled from the spec: creating a Candidate; the handler is missing
    from the sources.  The row is stored as sent. *)
Definition createCandidate (db : DB) (p : CandidateCreate)
    : DB * (Error + Candidate) :=
  let (db', c) :=
    insert_candidate db (cc_full_name p) (cc_phone p) (cc_email p) (cc_notes p) in
  (db', inr c).

(** Modelled from the spec: the status-specific dates of an Application.
    The rejection date is present exactly for a rejected Application and
    the start date exactly for a hired one: a request that lacks the date of
    its status, or that carries a date that does not belong to its status,
    fails validation. *)
Definition check_status_dates (s : Status) (rejection_date start_date : option Date)
    : option Error :=
  if negb (Bool.eqb (is_some rejection_date) (status_eqb s Rejected))
  then Some (ValidationError "rejection_date")
  else if negb (Bool.eqb (is_some start_date) (status_eqb s Hired))
  then Some (ValidationError "start_date")
  else None.

(** Modelled from the spec: a replacement link needs the replacement flag. *)
Definition check_replacement (is_replacement : bool) (replacement_of_id : option Z)
    : option Error :=
  match replacement_of_id with
  | Some _ => if is_replacement then None
              else Some (ValidationError "replacement_of_id")
  | None => None
  end.

(** Modelled from the spec: creating an Application; the handler is missing
    from the sources.  Required fields and status-specific dates are
    validated first, then the row is inserted under the references of the
    schema; the legacy payment scalars are stored as sent. *)
Definition createApplication (db : DB) (p : ApplicationCreate)
    : DB * (Error + Application) :=
  match ac_date_contacted p with
  | None => (db, inl (ValidationError "date_contacted"))
  | Some contacted =>
      match check_status_dates (ac_status p) (ac_rejection_date p) (ac_start_date p) with
      | Some e => (db, inl e)
      | None =>
          match check_replacement (ac_is_replacement p) (ac_replacement_of_id p) with
          | Some e => (db, inl e)
          | None =>
              match insert_application db (fun id now =>
                      mkApplication id (ac_candidate_id p) (ac_vacancy_id p)
                        (ac_recruiter_id p) contacted (ac_status p)
                        (ac_rejection_date p) (ac_start_date p) (ac_paid p)
                        (ac_paid_date p) (ac_payment_amount p)
                        (ac_is_replacement p) (ac_replacement_of_id p)
                        (ac_replacement_note p) now) with
              | Some (db', a) => (db', inr a)
              | None => (db, inl NotFoundError)
              end
          end
      end
  end.

(** Modelled from the spec: saving an Application; the handler is missing
    from the sources.  The same validation as at creation, on an existing
    row. *)
Definition updateApplication (db : DB) (id : Z) (p : ApplicationUpdate)
    : DB * (Error + Application) :=
  match find_application db id with
  | None => (db, inl NotFoundError)
  | Some old =>
      match au_date_contacted p with
      | None => (db, inl (ValidationError "date_contacted"))
      | Some contacted =>
          match check_status_dates (au_status p) (au_rejection_date p) (au_start_date p) with
          | Some e => (db, inl e)
          | None =>
              match check_replacement (au_is_replacement p) (au_replacement_of_id p) with
              | Some e => (db, inl e)
              | None =>
                  let change (a : Application) :=
                    mkApplication (a_id a) (a_candidate_id a) (a_vacancy_id a)
                      (a_recruiter_id a) contacted (au_status p)
                      (au_rejection_date p) (au_start_date p) (a_paid a)
                      (a_paid_date a) (a_payment_amount a)
                      (au_is_replacement p) (au_replacement_of_id p)
                      (au_replacement_note p) (a_created_at a) in
                  match au_replacement_of_id p with
                  | Some target =>
                      if is_some (find_application db target)
                      then (update_application db id change, inr (change old))
                      else (db, inl NotFoundError)
                  | None => (update_application db id change, inr (change old))
                  end
              end
          end
      end
  end.

(** Modelled from the spec: add payment; the handler is missing from the
    sources.  It requires [paid_date] and [amount > 0] and appends a new
    Payment row, leaving the Application untouched. *)
Definition addPayment (db : DB) (application_id : Z) (p : PaymentCreate)
    : DB * (Error + Payment) :=
  match pc_paid_date p with
  | None => (db, inl (ValidationError "paid_date"))
  | Some d =>
      if PrimFloat.ltb 0 (pc_amount p) then
        match insert_payment db application_id d (pc_amount p) (pc_note p) with
        | Some (db', pay) => (db', inr pay)
        | None => (db, inl NotFoundError)
        end
      else (db, inl (ValidationError "amount"))
  end.

Definition payment_order (a b : Payment) : bool :=
  if date_eqb (p_paid_date a) (p_paid_date b) then (p_id a <=? p_id b)%Z
  else date_leb (p_paid_date a) (p_paid_date b).

(** Modelled from the spec: list payments, by [paid_date] ascending and
    then by id. *)
Definition listPayments (db : DB) (application_id : Z) : list Payment :=
  sort_by payment_order
    (filter (fun p => (p_application_id p =? application_id)%Z) (payments db)).

(** *** The ledger aggregate *)

Definition sum_amounts (l : list float) : float :=
  fold_left PrimFloat.add l 0%float.

Definition later (a b : Date) : Date := if date_leb a b then b else a.

Definition last_paid_date (ps : list Payment) : option Date :=
  match ps with
  | [] => None
  | p :: ps' => Some (fold_left later (map p_paid_date ps') (p_paid_date p))
  end.

Definition to_list {A : Type} (o : option A) : list A :=
  match o with
  | Some a => [a]
  | None => []
  end.

(** *** Pipeline query *)

(** Modelled from the spec: one result row joins the Application with its
    Candidate, Vacancy, Client and Recruiter and with the ledger aggregate,
    which replaces the legacy scalar fields. *)
Definition pipeline_row (db : DB) (a : Application) : option PipelineRow :=
  match find_candidate db (a_candidate_id a),
        find_vacancy db (a_vacancy_id a),
        find_recruiter db (a_recruiter_id a) with
  | Some cand, Some vac, Some rec =>
      match find_client db (v_client_id vac) with
      | Some cl =>
          let ps := filter (fun p => (p_application_id p =? a_id a)%Z) (payments db) in
          Some (mkPipelineRow (a_id a) (v_client_id vac) (a_recruiter_id a)
                  (cand_full_name cand) (c_name cl) (v_title vac) (r_name rec)
                  (Some (a_date_contacted a)) (a_status a)
                  (a_rejection_date a) (a_start_date a)
                  (negb (Nat.eqb (List.length ps) 0))
                  (last_paid_date ps)
                  (sum_amounts (map p_amount ps))
                  (a_is_replacement a) (a_replacement_of_id a)
                  (a_replacement_note a) (a_created_at a))
      | None => None
      end
  | _, _, _ => None
  end.

Definition lower_char (c : ascii) : ascii :=
  let n := nat_of_ascii c in
  if (Nat.leb 65 n && Nat.leb n 90)%bool then ascii_of_nat (n + 32) else c.

Fixpoint lower (s : string) : string :=
  match s with
  | "" => ""
  | String c s' => String (lower_char c) (lower s')
  end.

Fixpoint is_substring (needle hay : string) : bool :=
  String.prefix needle hay
  || match hay with
     | "" => false
     | String _ hay' => is_substring needle hay'
     end.

(** Case-insensitive substring match (on the Latin letters) against the
    four names of a row. *)
Definition search_matches (needle : string) (r : PipelineRow) : bool :=
  let n := lower needle in
  is_substring n (lower (row_candidate_name r))
  || is_substring n (lower (row_vacancy_title r))
  || is_substring n (lower (row_client_name r))
  || is_substring n (lower (row_recruiter_name r)).

Definition when {A : Type} (o : option A) (test : A -> bool) : bool :=
  match o with
  | Some a => test a
  | None => true
  end.

(** Role scoping: a non-admin caller's recruiter id replaces the filter. *)
Definition scoped_recruiter (caller : Caller) (requested : option Z) : option Z :=
  match caller with
  | Admin => requested
  | User own => Some own
  end.

(** The client, status and search filters: exact matches and the search,
    combined with AND. *)
Definition filters_match (q : PipelineQuery) (r : PipelineRow) : bool :=
  when (q_client_id q) (fun id => (row_client_id r =? id)%Z)
  && when (q_status q) (fun s => status_eqb (row_status r) s)
  && when (q_search q) (fun s => search_matches s r).

Definition row_matches (caller : Caller) (q : PipelineQuery) (r : PipelineRow)
    : bool :=
  when (scoped_recruiter caller (q_recruiter_id q))
       (fun id => (row_recruiter_id r =? id)%Z)
  && filters_match q r.

(** Most recently created first, ties by id descending. *)
Definition newest_first (a b : PipelineRow) : bool :=
  if (row_created_at a =? row_created_at b)%Z then (row_id b <=? row_id a)%Z
  else (row_created_at b <? row_created_at a)%Z.

(** Modelled from the spec: [list_pipeline(filters, caller)]; the handler is
    missing from the sources.  Role scoping first, then the filters, all
    combined with AND; the full filtered set, newest first. *)
Definition list_pipeline (db : DB) (caller : Caller) (q : PipelineQuery)
    : list PipelineRow :=
  sort_by newest_first
    (filter (row_matches caller q)
       (flat_map (fun a => to_list (pipeline_row db a)) (applications db))).

(** *** Earnings report *)








End Server.

(** ** The front end: the [api] helper and the [App] component *)

Module App.
Import Store Server.

Inductive Role : Type := RoleAdmin | RoleUser.

Record AuthUser : Type := mkAuthUser {
  u_id : Z;
  u_username : string;
  u_role : Role;
  u_recruiter_id : option Z
}.

(** The pipeline filters; an absent filter is [undefined]. *)
Record Filters : Type := mkFilters {
  flt_client_id : option Z;
  flt_recruiter_id : option Z;
  flt_status : option Status;
  flt_search : option string
}.

(** The add form.  An id field holds a number or the empty string ([None]);
    a date field holds what a date input gives, an ISO date or the empty
    string ([None]). *)
Record AddForm : Type := mkAddForm {
  f_full_name : string;
  f_phone : string;
  f_email : string;
  f_notes : string;
  f_client_id : option Z;
  f_vacancy_id : option Z;
  f_recruiter_id : option Z;
  f_date_contacted : option Date;
  f_status : Status;
  f_rejection_date : option Date;
  f_start_date : option Date;
  f_paid : bool;
  f_paid_date : option Date;
  f_payment_amount : float;
  f_is_replacement : bool;
  f_replacement_of_id : option Z;
  f_replacement_note : string
}.

Record PayForm : Type := mkPayForm {
  pf_paid_date : option Date;
  pf_amount : float;
  pf_note : string
}.

(** The state of the component that the handlers below read and write. *)
Record UI : Type := mkUI {
  authUser : option AuthUser;
  filters : Filters;
  pipeline : list PipelineRow;
  addForm : AddForm;
  openAddApp : bool;
  openEditApp : option PipelineRow;
  payments : list Payment;
  payForm : PayForm;
  err : option string;
  loading : bool
}.

(** The component, the store behind the server, and the identity the
    bearer token of the requests resolves to. *)
Record World : Type := mkWorld { ui : UI; db : DB; session : Caller }.

Definition setErr (e : option string) (u : UI) : UI :=
  mkUI (authUser u) (filters u) (pipeline u) (addForm u) (openAddApp u)
       (openEditApp u) (payments u) (payForm u) e (loading u).

Definition setLoading (b : bool) (u : UI) : UI :=
  mkUI (authUser u) (filters u) (pipeline u) (addForm u) (openAddApp u)
       (openEditApp u) (payments u) (payForm u) (err u) b.

Definition setPipeline (rows : list PipelineRow) (u : UI) : UI :=
  mkUI (authUser u) (filters u) rows (addForm u) (openAddApp u)
       (openEditApp u) (payments u) (payForm u) (err u) (loading u).

Definition setAddForm (f : AddForm) (u : UI) : UI :=
  mkUI (authUser u) (filters u) (pipeline u) f (openAddApp u)
       (openEditApp u) (payments u) (payForm u) (err u) (loading u).

Definition setOpenAddApp (b : bool) (u : UI) : UI :=
  mkUI (authUser u) (filters u) (pipeline u) (addForm u) b
       (openEditApp u) (payments u) (payForm u) (err u) (loading u).

Definition setOpenEditApp (r : option PipelineRow) (u : UI) : UI :=
  mkUI (authUser u) (filters u) (pipeline u) (addForm u) (openAddApp u)
       r (payments u) (payForm u) (err u) (loading u).

Definition setPayments (l : list Payment) (u : UI) : UI :=
  mkUI (authUser u) (filters u) (pipeline u) (addForm u) (openAddApp u)
       (openEditApp u) l (payForm u) (err u) (loading u).

Definition setPayForm (f : PayForm) (u : UI) : UI :=
  mkUI (authUser u) (filters u) (pipeline u) (addForm u) (openAddApp u)
       (openEditApp u) (payments u) f (err u) (loading u).

(** *** JavaScript helpers on the form values *)

(** Texts are held as the bytes of their UTF-8 encoding.  The white space
    and line terminators of one byte: U+0009 to U+000D and U+0020. *)
Definition is_space (c : ascii) : bool :=
  let n := nat_of_ascii c in
  Nat.eqb n 32 || (Nat.leb 9 n && Nat.leb n 13).

Definition byte (c : ascii) (n : nat) : bool := Nat.eqb (nat_of_ascii c) n.

(** The white space of two bytes: U+00A0. *)
Definition space2 (a b : ascii) : bool := byte a 194 && byte b 160.

(** The white space and line terminators of three bytes: U+1680, U+2000 to
    U+200A, U+2028, U+2029, U+202F, U+205F, U+3000 and U+FEFF. *)
Definition space3 (a b c : ascii) : bool :=
  (byte a 225 && byte b 154 && byte c 128)
  || (byte a 226 && byte b 128
      && ((Nat.leb 128 (nat_of_ascii c) && Nat.leb (nat_of_ascii c) 138)
          || byte c 168 || byte c 169 || byte c 175))
  || (byte a 226 && byte b 129 && byte c 159)
  || (byte a 227 && byte b 128 && byte c 128)
  || (byte a 239 && byte b 187 && byte c 191).

(** The bytes begin with a white space character; [backwards] when they
    are read from the end of the text. *)
Definition begins_with_space (backwards : bool) (l : list ascii) : bool :=
  match l with
  | [] => false
  | a :: l1 =>
      is_space a
      || match l1 with
         | [] => false
         | b :: l2 =>
             (if backwards then space2 b a else space2 a b)
             || match l2 with
                | [] => false
                | c :: _ => if backwards then space3 c b a else space3 a b c
                end
         end
  end.

(** The bytes without the white space characters they begin with. *)
Fixpoint drop_spaces (backwards : bool) (l : list ascii) : list ascii :=
  match l with
  | [] => []
  | a :: l1 =>
      if is_space a then drop_spaces backwards l1
      else
        match l1 with
        | [] => l
        | b :: l2 =>
            if (if backwards then space2 b a else space2 a b)
            then drop_spaces backwards l2
            else
              match l2 with
              | [] => l
              | c :: l3 =>
                  if (if backwards then space3 c b a else space3 a b c)
                  then drop_spaces backwards l3
                  else l
              end
        end
  end.

(** [s.trim()]: the white space and line terminators are stripped from both
    ends. *)
Definition trim (s : string) : string :=
  string_of_list_ascii
    (rev (drop_spaces true (rev (drop_spaces false (list_ascii_of_string s))))).

(** Truthiness of an id field: the empty string and [0] are falsy. *)
Definition truthy_id (o : option Z) : bool :=
  match o with
  | Some n => negb (n =? 0)%Z
  | None => false
  end.

(** [Number(field)] for an id field. *)
Definition number_of_id (o : option Z) : Z :=
  match o with
  | Some n => n
  | None => 0%Z
  end.

(** [s || null]. *)
Definition or_null (s : string) : option string :=
  if JS.truthy_string s then Some s else None.

(** [x || 0]. *)
Definition or_zero (x : float) : float :=
  if JS.truthy_number x then x else 0%float.

(** *** [api.js] *)

(** [api.pipeline(params)]: a parameter enters the query string only when
    it is truthy. *)
Definition pipeline_query (params : Filters) : PipelineQuery :=
  mkPipelineQuery
    (if truthy_id (flt_client_id params) then flt_client_id params else None)
    (if truthy_id (flt_recruiter_id params) then flt_recruiter_id params else None)
    (flt_status params)
    (match flt_search params with
     | Some s => or_null s
     | None => None
     end).

Definition api_pipeline (w : World) (params : Filters) : list PipelineRow :=
  list_pipeline (db w) (session w) (pipeline_query params).

Definition no_filters : Filters := mkFilters None None None None.

(** The filters with another recruiter asked for. *)
Definition asking_for (requested : option Z) (params : Filters) : Filters :=
  mkFilters (flt_client_id params) requested (flt_status params)
            (flt_search params).

(** *** Effects and handlers of [App] *)

(** Fetch pipeline data with current filters. *)
Definition refreshPipeline (w : World) : World :=
  let u := setErr None (ui w) in
  mkWorld (setPipeline (api_pipeline w (filters u)) u) (db w) (session w).

(** Lock recruiter to current user for non-admin accounts. *)
Definition lockRecruiter (u : UI) : UI :=
  match authUser u with
  | Some usr =>
      match u_role usr with
      | RoleAdmin => u
      | RoleUser =>
          let f := addForm u in
          setAddForm
            (mkAddForm (f_full_name f) (f_phone f) (f_email f) (f_notes f)
               (f_client_id f) (f_vacancy_id f)
               (if truthy_id (u_recruiter_id usr) then u_recruiter_id usr else None)
               (f_date_contacted f) (f_status f) (f_rejection_date f)
               (f_start_date f) (f_paid f) (f_paid_date f) (f_payment_amount f)
               (f_is_replacement f) (f_replacement_of_id f)
               (f_replacement_note f)) u
      end
  | None => u
  end.

Definition formatMoneyUA (value : float) : string :=
  JS.replace_first "."%char ","%char (JS.toFixed value 2).

(** The messages of the form validation. *)
Definition msg_name : string := "Введите имя кандидата".
Definition msg_vacancy : string := "Выберите вакансию".
Definition msg_recruiter : string := "Выберите рекрутера".
Definition msg_rejected : string := "Для rejected нужна дата отказа".
Definition msg_hired : string := "Для hired нужна дата выхода".
Definition msg_paid : string := "Если оплачено, укажи дату платежа".
Definition msg_pay_date : string := "Укажи дату платежа".
Definition msg_pay_amount : string := "Сумма платежа должна быть > 0".

(** The form after a successful submit. *)
Definition blank_form (u : UI) (today : Date) : AddForm :=
  mkAddForm "" "" "" "" None None
    (match authUser u with
     | Some usr =>
         match u_role usr with
         | RoleAdmin => None
         | RoleUser =>
             if truthy_id (u_recruiter_id usr) then u_recruiter_id usr else None
         end
     | None => None
     end)
    (Some today) New None None false None 0%float false None "".

(** The validation at the head of [submitAddApplication]: the message of
    the first check that fails. *)
Definition validate_add (f : AddForm) : option string :=
  if negb (JS.truthy_string (trim (f_full_name f))) then Some msg_name
  else if negb (truthy_id (f_vacancy_id f)) then Some msg_vacancy
  else if negb (truthy_id (f_recruiter_id f)) then Some msg_recruiter
  else if status_eqb (f_status f) Rejected && negb (is_some (f_rejection_date f))
  then Some msg_rejected
  else if status_eqb (f_status f) Hired && negb (is_some (f_start_date f))
  then Some msg_hired
  else if f_paid f && negb (is_some (f_paid_date f)) then Some msg_paid
  else None.

Definition candidate_payload (f : AddForm) : CandidateCreate :=
  mkCandidateCreate (trim (f_full_name f)) (or_null (f_phone f))
    (or_null (f_email f)) (or_null (f_notes f)).

Definition application_payload (f : AddForm) (candidate_id : Z)
    : ApplicationCreate :=
  mkApplicationCreate candidate_id
    (number_of_id (f_vacancy_id f)) (number_of_id (f_recruiter_id f))
    (f_date_contacted f) (f_status f)
    (f_rejection_date f) (f_start_date f)
    (f_paid f) (f_paid_date f) (or_zero (f_payment_amount f))
    (f_is_replacement f)
    (if truthy_id (f_replacement_of_id f) then f_replacement_of_id f else None)
    (or_null (f_replacement_note f)).

(** Submit a new application (creates candidate and application). *)
Definition submitAddApplication (today : Date) (w : World) : World :=
  let u := setErr None (ui w) in
  let f := addForm u in
  match validate_add f with
  | Some m => mkWorld (setErr (Some m) u) (db w) (session w)
  | None =>
      let u := setLoading true u in
      (* 1) Create candidate *)
      let (db1, created) := createCandidate (db w) (candidate_payload f) in
      match created with
      | inl e => mkWorld (setLoading false (setErr (Some (describe e)) u)) db1 (session w)
      | inr candidate =>
          (* 2) Create application with optional initial payment *)
          let (db2, stored) :=
            createApplication db1 (application_payload f (cand_id candidate)) in
          match stored with
          | inl e =>
              mkWorld (setLoading false (setErr (Some (describe e)) u)) db2 (session w)
          | inr _ =>
              (* Reset form and refresh pipeline *)
              let u := setAddForm (blank_form u today) (setOpenAddApp false u) in
              let w' := refreshPipeline (mkWorld u db2 (session w)) in
              mkWorld (setLoading false (ui w')) (db w') (session w')
          end
      end
  end.

(** The validation at the head of [saveEditApplication]. *)
Definition validate_edit (row : PipelineRow) : option string :=
  if status_eqb (row_status row) Rejected && negb (is_some (row_rejection_date row))
  then Some msg_rejected
  else if status_eqb (row_status row) Hired && negb (is_some (row_start_date row))
  then Some msg_hired
  else None.

Definition update_payload (row : PipelineRow) : ApplicationUpdate :=
  mkApplicationUpdate (row_status row) (row_date_contacted row)
    (row_rejection_date row) (row_start_date row) (row_is_replacement row)
    (row_replacement_of_id row) (row_replacement_note row).

(** Save changes to an application (status, dates, replacement info). *)
Definition saveEditApplication (row : PipelineRow) (w : World) : World :=
  let u := setErr None (ui w) in
  match validate_edit row with
  | Some m => mkWorld (setErr (Some m) u) (db w) (session w)
  | None =>
      let u := setLoading true u in
      let (db1, saved) := updateApplication (db w) (row_id row) (update_payload row) in
      match saved with
      | inl e => mkWorld (setLoading false (setErr (Some (describe e)) u)) db1 (session w)
      | inr _ =>
          let w' := refreshPipeline (mkWorld (setOpenEditApp None u) db1 (session w)) in
          mkWorld (setLoading false (ui w')) (db w') (session w')
      end
  end.

(** The validation at the head of [addPaymentToCurrent]. *)
Definition validate_payment (pf : PayForm) : option string :=
  if negb (is_some (pf_paid_date pf)) then Some msg_pay_date
  else if negb (JS.truthy_number (pf_amount pf)) || PrimFloat.leb (pf_amount pf) 0
  then Some msg_pay_amount
  else None.

Definition payment_payload (pf : PayForm) : PaymentCreate :=
  mkPaymentCreate (pf_paid_date pf) (pf_amount pf) (or_null (pf_note pf)).

(** Add a payment to the currently edited application. *)
Definition addPaymentToCurrent (today : Date) (w : World) : World :=
  match openEditApp (ui w) with
  | None => w
  | Some current =>
      let u := ui w in
      match validate_payment (payForm u) with
      | Some m => mkWorld (setErr (Some m) u) (db w) (session w)
      | None =>
          let u := setLoading true u in
          let (db1, added) :=
            addPayment (db w) (row_id current) (payment_payload (payForm u)) in
          match added with
          | inl e =>
              mkWorld (setLoading false (setErr (Some (describe e)) u)) db1 (session w)
          | inr _ =>
              let u := setPayments (listPayments db1 (row_id current)) u in
              let w' := refreshPipeline (mkWorld u db1 (session w)) in
              (* Update openEditApp with fresh data from pipeline *)
              let fresh :=
                match find (fun x => (row_id x =? row_id current)%Z)
                           (api_pipeline w' no_filters) with
                | Some x => x
                | None => current
                end in
              let u := setPayForm (mkPayForm (Some today) 0%float "")
                         (setOpenEditApp (Some fresh) (ui w')) in
              mkWorld (setLoading false u) (db w') (session w')
          end
      end
  end.

(** List of applications for selecting replacement application (in
    add/edit forms). *)
Definition replacementOptions (pipeline : list PipelineRow) : list PipelineRow :=
  firstn 500 pipeline.

(** The values of the options of the replacement selector; the first
    option is the empty one. *)
Definition replacement_choices (pipeline : list PipelineRow) : list (option Z) :=
  None :: map (fun r => Some (row_id r)) (replacementOptions pipeline).

(** *** The report tab *)

Record TaxOverlay : Type := mkTaxOverlay {
  singleTax : float;
  militaryTax : float;
  esv : float;
  totalTax : float;
  net : float
}.

(** The tax block of the report tab. *)
Definition taxOverlay (repTotal : float) : TaxOverlay :=
  let income := repTotal in
  let singleTax := (income * 0.05)%float in
  let militaryTax := (income * 0.01)%float in
  let esv := 1902.34%float in
  let totalTax := (singleTax + militaryTax + esv)%float in
  let net := (income - totalTax)%float in
  mkTaxOverlay singleTax militaryTax esv totalTax net.

(** The five amounts the block shows, in the order of the markup; the block
    is rendered when the toggle is on and a report is loaded. *)
Definition renderTaxOverlay (showTax : bool) (repTotal : option float)
    : option (list string) :=
  match showTax, repTotal with
  | true, Some t =>
      let o := taxOverlay t in
      Some [formatMoneyUA (singleTax o); formatMoneyUA (militaryTax o);
            formatMoneyUA (esv o); formatMoneyUA (totalTax o);
            formatMoneyUA (net o)]
  | _, _ => None
  end.



(** *** The money format *)





(** *** What the forms are meant to keep in the store *)

(** Candidates no Application refers to. *)
Definition orphans (db : DB) : list Candidate :=
  filter (fun c => negb (existsb (fun a => (a_candidate_id a =? cand_id c)%Z)
                                 (applications db)))
         (candidates db).


End App.

(** ** Sample data *)

Module Sample.
Import Store Server App.

Definition acme : Client := mkClient 1 "Acme".
Definition olena : Recruiter := mkRecruiter 1 "Olena".
Definition taras : Recruiter := mkRecruiter 2 "Taras".
Definition ivan : Candidate := mkCandidate 1 "Ivan Petrenko" None None None.
Definition maria : Candidate := mkCandidate 2 "Maria Koval" None None None.
Definition welder : Vacancy := mkVacancy 1 1 "Welder" 1000%float None.

Definition ivan_welder : Application :=
  mkApplication 1 1 1 1 (mkDate 2024 2 1) Hired None (Some (mkDate 2024 3 1))
    false None 0%float false None None 10.

Definition maria_welder : Application :=
  mkApplication 2 2 1 2 (mkDate 2024 2 10) InProcess None None
    false None 0%float false None None 11.

(** The three payments of the earnings example. *)
Definition march_5 : Payment := mkPayment 1 1 (mkDate 2024 3 5) 100%float None 20.
Definition march_31 : Payment := mkPayment 2 1 (mkDate 2024 3 31) 50%float None 21.
Definition april_1 : Payment := mkPayment 3 1 (mkDate 2024 4 1) 999%float None 22.

Definition store : DB :=
  mkDB [acme] [olena; taras] [ivan; maria] [welder] [ivan_welder; maria_welder]
       [march_5; march_31; april_1] 3 3 4 30.

(** A store with the master data and nothing else. *)
Definition fresh_store : DB :=
  mkDB [acme] [olena; taras] [] [welder] [] [] 1 1 1 0.

Definition today : Date := mkDate 2024 4 2.

Definition admin : AuthUser := mkAuthUser 1 "admin" RoleAdmin None.

Definition empty_pay_form : PayForm := mkPayForm (Some today) 0%float "".

(** A filled add form: a new candidate for the welder vacancy. *)
Definition form (s : Status) (contacted rejection start : option Date) : AddForm :=
  mkAddForm "Petro Bondar" "" "" "" (Some 1%Z) (Some 1%Z) (Some 1%Z)
    contacted s rejection start false None 0%float false None "".

Definition world (store : DB) (f : AddForm) (editing : option PipelineRow)
    (pf : PayForm) : World :=
  mkWorld
    (mkUI (Some admin) no_filters [] f true editing [] pf None false)
    store Admin.


(** The same form with the rejection date supplied. *)
Definition accepted_world : World :=
  world fresh_store (form Rejected (Some today) (Some today) None) None
        empty_pay_form.

(** The add form with the contact date cleared. *)
Definition cleared_world : World :=
  world fresh_store (form New None None None) None empty_pay_form.

(** Rows whose values hold a semicolon, a quote and a newline. *)
Definition quoted_rows : list Csv.row :=
  [[("name", Csv.VString "a;b");
    ("note", Csv.VString (String Csv.dquote "q"))];
   [("name", Csv.VString (String Csv.newline "x")); ("paid", Csv.VNull)]].

(** Members of [Object.prototype], with the texts one engine gives for
    them. *)
Definition object_prototype : Csv.row :=
  [("constructor", Csv.VObject "function Object() { [native code] }");
   ("hasOwnProperty", Csv.VObject "function hasOwnProperty() { [native code] }");
   ("isPrototypeOf", Csv.VObject "function isPrototypeOf() { [native code] }");
   ("propertyIsEnumerable",
    Csv.VObject "function propertyIsEnumerable() { [native code] }");
   ("toLocaleString", Csv.VObject "function toLocaleString() { [native code] }");
   ("toString", Csv.VObject "function toString() { [native code] }");
   ("valueOf", Csv.VObject "function valueOf() { [native code] }");
   ("__proto__", Csv.VObject "[object Object]")].


(** The pipeline row of Ivan's application, as the edit form holds it. *)
Definition ivan_row : PipelineRow :=
  mkPipelineRow 1 1 1 "Ivan Petrenko" "Acme" "Welder" "Olena"
    (Some (mkDate 2024 2 1)) Hired None (Some (mkDate 2024 3 1))
    true (Some (mkDate 2024 4 1)) 1149%float false None None 10.

(** The sample world as the user bound to the recruiter Taras sees it. *)
Definition taras_world : World :=
  mkWorld (ui (world store (form New None None None) None empty_pay_form))
          store (User 2).

(** The edit form open on Ivan's application, with a payment of 25. *)
Definition paying_world : World :=
  world store (form New None None None) (Some ivan_row)
        (mkPayForm (Some today) 25%float "").

(** A pipeline of [n] rows with the ids [1 .. n]. *)
Definition numbered_row (i : nat) : PipelineRow :=
  mkPipelineRow (Z.of_nat i) 1 1 "" "" "" "" None New None None
    false None 0%float false None None 0.

Definition numbered_pipeline (n : nat) : list PipelineRow :=
  map numbered_row (seq 1 n).

End Sample.

(** ** Browser storage and the [api] helper *)

Module Web.
Import Store Server App.

(** A [Storage] object: its keys with their values. *)
Definition Storage : Type := list (string * string).

Fixpoint getItem (s : Storage) (key : string) : option string :=
  match s with
  | [] => None
  | (k, v) :: s' => if String.eqb k key then Some v else getItem s' key
  end.

Fixpoint setItem (s : Storage) (key value : string) : Storage :=
  match s with
  | [] => [(key, value)]
  | (k, v) :: s' =>
      if String.eqb k key then (k, value) :: s' else (k, v) :: setItem s' key value
  end.

Definition removeItem (s : Storage) (key : string) : Storage :=
  filter (fun kv => negb (String.eqb (fst kv) key)) s.

Record Browser : Type := mkBrowser {
  localStorage : Storage;
  sessionStorage : Storage
}.

Definition TOKEN_KEY : string := "crm.token".
Definition THEME_KEY : string := "crm.theme".
Definition REMEMBER_KEY : string := "crm.remember".
Definition TEXT_ZOOM_KEY : string := "crm.textZoom".

(** Truthiness of a string or [null]. *)
Definition truthy (o : option string) : bool :=
  match o with
  | Some s => JS.truthy_string s
  | None => false
  end.

(** [a || b] on strings or [null]. *)
Definition or_else (a b : option string) : option string :=
  if truthy a then a else b.

(** [getToken] of [api.js], and [getStoredToken] of the component. *)
Definition getToken (b : Browser) : option string :=
  or_else (getItem (localStorage b) TOKEN_KEY) (getItem (sessionStorage b) TOKEN_KEY).

(** The header objects of a request: property names with their values. *)
Definition Headers : Type := list (string * string).

(** [{ ...a, ...b }]. *)
Definition spread (a b : Headers) : Headers :=
  fold_left (fun acc kv => setItem acc (fst kv) (snd kv)) b a.

(** The second argument of [http]: the fields the wrappers pass. *)
Record Options : Type := mkOptions {
  o_method : option string;
  o_body : option string;
  o_headers : option Headers
}.

(** What [fetch] is called with. *)
Record Request : Type := mkRequest {
  req_url : string;
  req_method : option string;
  req_body : option string;
  req_headers : Headers
}.

(** What [http] reads of the response. *)
Record Response (J : Type) : Type := mkResponse {
  ok : bool;
  status : Z;
  text : string;
  json : J
}.

Arguments ok {J} _.
Arguments status {J} _.
Arguments text {J} _.
Arguments json {J} _.

(** In production (when built), relative paths; in development,
    localhost:15000. *)
Definition API (prod : bool) : string :=
  if prod then "" else "http://localhost:15000".

(** [String(n)] for an integer. *)
Definition string_of_int (n : Z) : string :=
  if (n <? 0)%Z then "-" ++ JS.digits_of_Z (Z.abs n) else JS.digits_of_Z n.

(** The default headers of [http] with the headers of the options spread
    over them. *)
Definition merged_headers (b : Browser) (options : option Options) : Headers :=
  spread
    (spread [("Content-Type", "application/json")]
       (match getToken b with
        | Some token =>
            if JS.truthy_string token then [("Authorization", "Bearer " ++ token)]
            else []
        | None => []
        end))
    (match options with
     | Some o => match o_headers o with
                 | Some h => h
                 | None => []
                 end
     | None => []
     end).

(** The argument of [fetch]: the [headers] property first, the options
    spread after it. *)
Definition request (prod : bool) (b : Browser) (path : string)
    (options : option Options) : Request :=
  mkRequest (API prod ++ path)
    (match options with
     | Some o => o_method o
     | None => None
     end)
    (match options with
     | Some o => o_body o
     | None => None
     end)
    (match options with
     | Some o => match o_headers o with
                 | Some h => h
                 | None => merged_headers b options
                 end
     | None => merged_headers b options
     end).

(** Generic HTTP helper that wraps fetch with default headers and error
    handling: the message of the error thrown, or the parsed body. *)
Definition http {J : Type} (fetch : Request -> Response J) (prod : bool)
    (b : Browser) (path : string) (options : option Options) : string + J :=
  let res := fetch (request prod b path options) in
  if negb (ok res) then
    inl (if JS.truthy_string (text res) then text res
         else "HTTP " ++ string_of_int (status res))
  else inr (json res).

(** *** The query string of [api.pipeline] *)

Definition is_alnum (c : ascii) : bool :=
  let n := nat_of_ascii c in
  (Nat.leb 48 n && Nat.leb n 57) || (Nat.leb 65 n && Nat.leb n 90)
  || (Nat.leb 97 n && Nat.leb n 122).

(** The bytes the urlencoded serializer leaves as they are. *)
Definition unreserved (c : ascii) : bool :=
  is_alnum c || Ascii.eqb c "*" || Ascii.eqb c "-" || Ascii.eqb c "."
  || Ascii.eqb c "_".

Definition hex_digit (n : nat) : ascii :=
  if Nat.ltb n 10 then ascii_of_nat (48 + n) else ascii_of_nat (55 + n).

Definition encode_byte (c : ascii) : string :=
  if unreserved c then String c ""
  else if Ascii.eqb c " " then "+"
  else String "%" (String (hex_digit (nat_of_ascii c / 16))
                     (String (hex_digit (nat_of_ascii c mod 16)) "")).

(** The urlencoded form of a string (of its UTF-8 bytes). *)
Fixpoint urlencode (s : string) : string :=
  match s with
  | "" => ""
  | String c s' => encode_byte c ++ urlencode s'
  end.

(** [sp.toString()] for a [URLSearchParams]. *)
Definition serialize (sp : list (string * string)) : string :=
  String.concat "&" (map (fun kv => urlencode (fst kv) ++ "=" ++ urlencode (snd kv)) sp).

Definition status_text (s : Status) : string :=
  match s with
  | New => "new"
  | InProcess => "in_process"
  | Rejected => "rejected"
  | Hired => "hired"
  end.

(** The [URLSearchParams] that [api.pipeline] fills. *)
Definition pipeline_params (params : Filters) : list (string * string) :=
  ((match flt_client_id params with
    | Some id => if truthy_id (Some id) then [("client_id", string_of_int id)] else []
    | None => []
    end)
   ++ (match flt_recruiter_id params with
       | Some id => if truthy_id (Some id) then [("recruiter_id", string_of_int id)] else []
       | None => []
       end)
   ++ (match flt_status params with
       | Some s => [("status", status_text s)]
       | None => []
       end)
   ++ (match flt_search params with
       | Some s => if JS.truthy_string s then [("search", s)] else []
       | None => []
       end))%list.

(** The path [api.pipeline] requests. *)
Definition pipeline_path (params : Filters) : string :=
  let qs := serialize (pipeline_params params) in
  if JS.truthy_string qs then "/pipeline?" ++ qs else "/pipeline".

Fixpoint count_char (c : ascii) (s : string) : nat :=
  match s with
  | "" => 0
  | String a s' => (if Ascii.eqb a c then 1 else 0) + count_char c s'
  end.

End Web.

(** ** Login, stored token and display settings of [App] *)

Module Session.
Import Store Server App Web.

Record LoginForm : Type := mkLoginForm {
  lf_username : string;
  lf_password : string
}.

(** The browser storage and the state of the component that the login code
    reads and writes. *)
Record State : Type := mkState {
  browser : Browser;
  authUser : option AuthUser;
  rememberUser : bool;
  loginForm : LoginForm;
  loginError : option string;
  authBusy : bool;
  authLoading : bool;
  tab : string
}.

Definition msg_login : string := "Введите логин и пароль".
Definition pipeline_tab : string := "Воронка".

(** [String(e?.message || e)] for an [Error] with the given message. *)
Definition error_text (message : string) : string :=
  if JS.truthy_string message then message else "Error".

(** Auth bootstrap; [me] is the outcome of [api.me()] under a token. *)
Definition bootstrap (me : string -> option AuthUser) (s : State) : State :=
  match getToken (browser s) with
  | Some token =>
      if JS.truthy_string token then
        match me token with
        | Some u =>
            mkState (browser s) (Some u) (rememberUser s) (loginForm s)
              (loginError s) (authBusy s) false (tab s)
        | None =>
            mkState
              (mkBrowser (removeItem (localStorage (browser s)) TOKEN_KEY)
                         (removeItem (sessionStorage (browser s)) TOKEN_KEY))
              (authUser s) (rememberUser s) (loginForm s)
              (loginError s) (authBusy s) false (tab s)
        end
      else
        mkState (browser s) (authUser s) (rememberUser s) (loginForm s)
          (loginError s) (authBusy s) false (tab s)
  | None =>
      mkState (browser s) (authUser s) (rememberUser s) (loginForm s)
        (loginError s) (authBusy s) false (tab s)
  end.

(** [handleLogin]; [login] is the outcome of [api.login]: the message of
    the error, or the token and the user. *)
Definition handleLogin (login : string -> string -> string + (string * AuthUser))
    (s : State) : State :=
  let f := loginForm s in
  if negb (JS.truthy_string (trim (lf_username f)))
     || negb (JS.truthy_string (lf_password f))
  then
    mkState (browser s) (authUser s) (rememberUser s) f (Some msg_login)
      (authBusy s) (authLoading s) (tab s)
  else
    match login (trim (lf_username f)) (lf_password f) with
    | inr (token, u) =>
        mkState
          (mkBrowser (setItem (localStorage (browser s)) TOKEN_KEY token)
                     (sessionStorage (browser s)))
          (Some u) (rememberUser s) (mkLoginForm "" "") None false
          (authLoading s) (tab s)
    | inl message =>
        mkState (browser s) (authUser s) (rememberUser s) f
          (Some (error_text message)) false (authLoading s) (tab s)
    end.

(** [handleLogout]; [confirmed] is the answer to the confirm dialog. *)
Definition handleLogout (confirmed : bool) (s : State) : State :=
  if negb confirmed then s
  else
    mkState
      (mkBrowser (removeItem (localStorage (browser s)) TOKEN_KEY)
                 (sessionStorage (browser s)))
      None (rememberUser s) (loginForm s) (loginError s) (authBusy s)
      (authLoading s) pipeline_tab.

(** The effect on [rememberUser]: the flag is written to local storage. *)
Definition persistRemember (s : State) : State :=
  mkState
    (mkBrowser
       (setItem (localStorage (browser s)) REMEMBER_KEY
                (if rememberUser s then "true" else "false"))
       (sessionStorage (browser s)))
    (authUser s) (rememberUser s) (loginForm s) (loginError s) (authBusy s)
    (authLoading s) (tab s).

(** The initial value of [rememberUser]. *)
Definition initRemember (b : Browser) : bool :=
  match getItem (localStorage b) REMEMBER_KEY with
  | Some v => String.eqb v "true"
  | None => false
  end.

(** The effect on [rememberUser] and the user: the token is kept in local
    storage when the user is remembered, in session storage otherwise. *)
Definition placeToken (s : State) : State :=
  match authUser s with
  | None => s
  | Some _ =>
      match getToken (browser s) with
      | Some token =>
          if JS.truthy_string token then
            mkState
              (if rememberUser s then
                 mkBrowser (setItem (localStorage (browser s)) TOKEN_KEY token)
                           (removeItem (sessionStorage (browser s)) TOKEN_KEY)
               else
                 mkBrowser (removeItem (localStorage (browser s)) TOKEN_KEY)
                           (setItem (sessionStorage (browser s)) TOKEN_KEY token))
              (authUser s) (rememberUser s) (loginForm s) (loginError s)
              (authBusy s) (authLoading s) (tab s)
          else s
      | None => s
      end
  end.

(** The [beforeunload] handler. *)
Definition beforeunload (s : State) : State :=
  if rememberUser s then s
  else
    mkState
      (mkBrowser (removeItem (localStorage (browser s)) TOKEN_KEY)
                 (removeItem (sessionStorage (browser s)) TOKEN_KEY))
      (authUser s) (rememberUser s) (loginForm s) (loginError s)
      (authBusy s) (authLoading s) (tab s).

(** *** Theme and text zoom *)

Inductive Theme : Type := Light | Dark.

Definition theme_text (t : Theme) : string :=
  match t with
  | Light => "light"
  | Dark => "dark"
  end.

(** The initial theme; [prefersDark] is what the media query answers. *)
Definition initTheme (b : Browser) (prefersDark : bool) : Theme :=
  match getItem (localStorage b) THEME_KEY with
  | Some stored =>
      if String.eqb stored "light" then Light
      else if String.eqb stored "dark" then Dark
      else if prefersDark then Dark else Light
  | None => if prefersDark then Dark else Light
  end.

(** Apply and persist theme selection (the storage part). *)
Definition persistTheme (t : Theme) (b : Browser) : Browser :=
  mkBrowser (setItem (localStorage b) THEME_KEY (theme_text t)) (sessionStorage b).

Definition toggleTheme (t : Theme) : Theme :=
  match t with
  | Dark => Light
  | Light => Dark
  end.

(** The initial text zoom; [toNumber] is [Number] on strings. *)
Definition initTextZoom (toNumber : string -> float) (b : Browser) : float :=
  let stored :=
    toNumber (match or_else (getItem (localStorage b) TEXT_ZOOM_KEY) (Some "100") with
              | Some v => v
              | None => "100"
              end) in
  if JS.is_finite stored && PrimFloat.leb 80 stored && PrimFloat.leb stored 140
  then stored else 100%float.

End Session.

(** ** The add form and the master-data forms of [App] *)

Module Forms.
Import Store Server App.

Definition with_vacancy (f : AddForm) (client_id vacancy_id : option Z)
    (paid : bool) (payment_amount : float) : AddForm :=
  mkAddForm (f_full_name f) (f_phone f) (f_email f) (f_notes f)
    client_id vacancy_id (f_recruiter_id f) (f_date_contacted f) (f_status f)
    (f_rejection_date f) (f_start_date f) paid (f_paid_date f) payment_amount
    (f_is_replacement f) (f_replacement_of_id f) (f_replacement_note f).

(** [v.client_id === id] and [v.id === id] for an id field. *)
Definition same_id (n : Z) (field : option Z) : bool :=
  match field with
  | Some m => (n =? m)%Z
  | None => false
  end.

(** Filter vacancies based on selected client for add form. *)
Definition filteredVacancies (vacancies : list Vacancy) (f : AddForm)
    : list Vacancy :=
  if negb (truthy_id (f_client_id f)) then vacancies
  else filter (fun v => same_id (v_client_id v) (f_client_id f)) vacancies.

(** Determine the selected vacancy. *)
Definition selectedVacancy (vacancies : list Vacancy) (f : AddForm)
    : option Vacancy :=
  if negb (truthy_id (f_vacancy_id f)) then None
  else find (fun v => same_id (v_id v) (f_vacancy_id f)) vacancies.

(** [Number(vac?.fee_amount || 0)]. *)
Definition fee_or_zero (vac : option Vacancy) : float :=
  match vac with
  | Some v => or_zero (v_fee_amount v)
  | None => 0%float
  end.

(** Auto-set payment amount when toggling the paid checkbox in add form. *)
Definition autoAmount (vacancies : list Vacancy) (f : AddForm) : AddForm :=
  match selectedVacancy vacancies f with
  | Some v =>
      if f_paid f
         && (negb (JS.truthy_number (f_payment_amount f))
             || PrimFloat.eqb (f_payment_amount f) 0)
      then with_vacancy f (f_client_id f) (f_vacancy_id f) (f_paid f)
             (or_zero (v_fee_amount v))
      else f
  | None => f
  end.

(** What the user does in the add form. *)
Inductive Change : Type :=
  | PickClient (value : option Z)
  | PickVacancy (value : option Z)
  | TickPaid (checked : bool).

(** The [onChange] handlers of the client select, the vacancy select and
    the paid checkbox. *)
Definition change (vacancies : list Vacancy) (f : AddForm) (c : Change)
    : AddForm :=
  match c with
  | PickClient value => with_vacancy f value None (f_paid f) 0%float
  | PickVacancy vid =>
      let vac := find (fun v => same_id (v_id v) vid) vacancies in
      with_vacancy f (f_client_id f) vid (f_paid f)
        (if f_paid f then fee_or_zero vac else f_payment_amount f)
  | TickPaid paid =>
      with_vacancy f (f_client_id f) (f_vacancy_id f) paid
        (if paid then fee_or_zero (selectedVacancy vacancies f) else 0%float)
  end.

(** The vacancy select offers the empty option and the filtered
    vacancies. *)
Definition offered (vacancies : list Vacancy) (f : AddForm) (c : Change) : Prop :=
  match c with
  | PickVacancy (Some id) =>
      exists v, In v (filteredVacancies vacancies f) /\ v_id v = id
  | _ => True
  end.

(** The changes of a session, each offered by the form it is made on. *)
Fixpoint offered_all (vacancies : list Vacancy) (f : AddForm) (cs : list Change)
    : Prop :=
  match cs with
  | [] => True
  | c :: cs' => offered vacancies f c /\ offered_all vacancies (change vacancies f c) cs'
  end.

(** The selected vacancy is a vacancy of the selected client. *)
Definition vacancy_of_client (vacancies : list Vacancy) (f : AddForm) : Prop :=
  truthy_id (f_client_id f) = true -> truthy_id (f_vacancy_id f) = true ->
  exists v, In v vacancies /\ same_id (v_id v) (f_vacancy_id f) = true
            /\ same_id (v_client_id v) (f_client_id f) = true.

(** A text without white space at its ends. *)
Definition trimmed (s : string) : Prop :=
  begins_with_space false (list_ascii_of_string s) = false
  /\ begins_with_space true (rev (list_ascii_of_string s)) = false.

(** *** Users *)

Record UserForm : Type := mkUserForm {
  uf_username : string;
  uf_password : string;
  uf_role : Role;
  uf_recruiter_id : option Z
}.

(** The body of a user request; a password that is [undefined] is not
    sent. *)
Record UserPayload : Type := mkUserPayload {
  up_username : string;
  up_password : option string;
  up_role : Role;
  up_recruiter_id : option Z
}.

Definition msg_user_login : string := "Введите логин и пароль".
Definition msg_user_name : string := "Введите логин".
Definition msg_user_recruiter : string := "Для пользователя нужен рекрутер".

Definition is_admin (r : Role) : bool :=
  match r with
  | RoleAdmin => true
  | RoleUser => false
  end.

(** [createUser] up to its request: the message shown instead of a
    request, or the body sent. *)
Definition createUser_request (u : UserForm) : string + UserPayload :=
  if negb (JS.truthy_string (trim (uf_username u)))
     || negb (JS.truthy_string (uf_password u))
  then inl msg_user_login
  else if negb (is_admin (uf_role u)) && negb (truthy_id (uf_recruiter_id u))
  then inl msg_user_recruiter
  else inr (mkUserPayload (trim (uf_username u)) (Some (uf_password u)) (uf_role u)
              (if is_admin (uf_role u) then None
               else Some (number_of_id (uf_recruiter_id u)))).

(** [saveEditUser] up to its request, for a user being edited. *)
Definition saveEditUser_request (u : UserForm) : string + UserPayload :=
  if negb (JS.truthy_string (trim (uf_username u))) then inl msg_user_name
  else if negb (is_admin (uf_role u)) && negb (truthy_id (uf_recruiter_id u))
  then inl msg_user_recruiter
  else inr (mkUserPayload (trim (uf_username u)) (or_null (uf_password u)) (uf_role u)
              (if is_admin (uf_role u) then None
               else Some (number_of_id (uf_recruiter_id u)))).

(** *** Vacancies *)

Record VacancyForm : Type := mkVacancyForm {
  vf_title : string;
  vf_client_id : option Z;
  vf_fee : float;
  vf_city : string
}.

Record VacancyPayload : Type := mkVacancyPayload {
  vp_client_id : Z;
  vp_title : string;
  vp_fee_amount : float;
  vp_city : option string
}.

Definition msg_vacancy_title : string := "Введите название вакансии".
Definition msg_vacancy_client : string := "Выберите клиента".

Definition vacancy_payload (v : VacancyForm) : VacancyPayload :=
  mkVacancyPayload (number_of_id (vf_client_id v)) (trim (vf_title v))
    (or_zero (vf_fee v)) (or_null (trim (vf_city v))).

(** What [addVacancy] does up to its request. *)
Inductive Attempt : Type :=
  | Nothing                            (* returns at once: nothing shown or sent *)
  | Refused (message : string)         (* shows a message, sends nothing *)
  | Sent (payload : VacancyPayload).   (* sends the request *)

(** [addVacancy] up to its request. *)
Definition addVacancy_attempt (v : VacancyForm) : Attempt :=
  if negb (JS.truthy_string (trim (vf_title v))) || negb (truthy_id (vf_client_id v))
  then Nothing
  else Sent (vacancy_payload v).

(** [saveEditVacancy] up to its request; [editing] tells whether a vacancy
    is open in the edit form. *)
Definition saveEditVacancy_attempt (editing : bool) (v : VacancyForm) : Attempt :=
  if negb editing then Nothing
  else if negb (JS.truthy_string (trim (vf_title v))) then Refused msg_vacancy_title
  else if negb (truthy_id (vf_client_id v)) then Refused msg_vacancy_client
  else Sent (vacancy_payload v).

End Forms.

(** ** The rows handed to the CSV export *)

Module CsvRows.
Import Store Server App Csv.

(** The number an integer id is. *)
Definition number_of_int (n : Z) : float :=
  if (n <? 0)%Z then PrimFloat.opp (PrimFloat.of_uint63 (Uint63.of_Z (- n)))
  else PrimFloat.of_uint63 (Uint63.of_Z n).

(** [s.padStart(n, c)] for a one-character [c]. *)
Definition padStart (n : nat) (c : ascii) (s : string) : string :=
  JS.repeat_char c (n - String.length s) ++ s.

(** The ISO text a date field holds. *)
Definition date_text (d : Date) : string :=
  padStart 4 "0" (JS.digits_of_Z (year d)) ++ "-"
  ++ padStart 2 "0" (JS.digits_of_Z (month d)) ++ "-"
  ++ padStart 2 "0" (JS.digits_of_Z (day d)).

(** [d ?? ""] for a date field. *)
Definition date_or_empty (d : option Date) : value :=
  match d with
  | Some x => VString (date_text x)
  | None => VString ""
  end.

(** A date field passed as it is: [null] when it is not set. *)
Definition date_or_null (d : option Date) : value :=
  match d with
  | Some x => VString (date_text x)
  | None => VNull
  end.

Definition yes_no (b : bool) : value :=
  VString (if b then "yes" else "no").

(** The object built for one pipeline row by the export button of the
    pipeline tab. *)
Definition pipeline_export_row (p : PipelineRow) : row :=
  [("id", VNumber (number_of_int (row_id p)));
   ("candidate", VString (row_candidate_name p));
   ("client", VString (row_client_name p));
   ("vacancy", VString (row_vacancy_title p));
   ("recruiter", VString (row_recruiter_name p));
   ("date_contacted", date_or_null (row_date_contacted p));
   ("status", VString (Web.status_text (row_status p)));
   ("rejection_date", date_or_empty (row_rejection_date p));
   ("start_date", date_or_empty (row_start_date p));
   ("paid", yes_no (row_paid p));
   ("last_paid_date", date_or_empty (row_paid_date p));
   ("total_paid", VNumber (row_payment_amount p));
   ("is_replacement", yes_no (row_is_replacement p));
   ("replacement_of_id",
    match row_replacement_of_id p with
    | Some id => VNumber (number_of_int id)
    | None => VString ""
    end);
   ("replacement_note",
    match row_replacement_note p with
    | Some s => VString s
    | None => VString ""
    end)].

(** The object built for one report line by the export button of the
    report tab. *)
Definition earnings_export_row (it : ReportLine) : row :=
  [("paid_date", VString (date_text (l_paid_date it)));
   ("amount", VNumber (l_amount it));
   ("candidate", VString (l_candidate_name it));
   ("client", VString (l_client_name it));
   ("vacancy", VString (l_vacancy_title it));
   ("recruiter", VString (l_recruiter_name it));
   ("application_id", VNumber (number_of_int (l_application_id it)));
   ("payment_id", VNumber (number_of_int (l_payment_id it)))].

Definition pipeline_columns : list string :=
  ["id"; "candidate"; "client"; "vacancy"; "recruiter"; "date_contacted";
   "status"; "rejection_date"; "start_date"; "paid"; "last_paid_date";
   "total_paid"; "is_replacement"; "replacement_of_id"; "replacement_note"].

Definition earnings_columns : list string :=
  ["paid_date"; "amount"; "candidate"; "client"; "vacancy"; "recruiter";
   "application_id"; "payment_id"].

(** The file the export button of the pipeline tab hands over. *)
Definition exportPipeline (proto : row) (pipeline : list PipelineRow) : string :=
  downloadCSV proto (map pipeline_export_row pipeline).

(** The file the export button of the report tab hands over. *)
Definition exportEarnings (proto : row) (repItems : list ReportLine) : string :=
  downloadCSV proto (map earnings_export_row repItems).

End CsvRows.

(** ** More sample data *)

Module Sample2.
Import Store Server App Web Session Forms.

Definition olena_user : AuthUser := mkAuthUser 2 "olena" RoleUser (Some 1%Z).

(** A logged-in session whose token sits in local storage. *)
Definition logged_in (remember : bool) : State :=
  mkState (mkBrowser [(TOKEN_KEY, "abc")] []) (Some olena_user) remember
    (mkLoginForm "" "") None false false pipeline_tab.

(** The login screen with a filled form; nothing stored. *)
Definition at_login : State :=
  mkState (mkBrowser [] []) None false (mkLoginForm " olena " "secret") None
    false false pipeline_tab.

(** A server that accepts every login. *)
Definition accept (username password : string) : string + (string * AuthUser) :=
  inr ("abc", olena_user).

Definition post : Options := mkOptions (Some "POST") (Some "{}") None.

Definition driver : Vacancy := mkVacancy 2 2 "Driver" 0%float None.

Definition blank : AddForm :=
  mkAddForm "" "" "" "" None None None None New None None false None 0%float
    false None "".

Definition new_user : UserForm := mkUserForm " olena " "secret" RoleUser (Some 1%Z).

Definition new_vacancy : VacancyForm :=
  mkVacancyForm " Welder " (Some 1%Z) 1000%float " Kyiv ".

(** A line of the report whose candidate name holds a semicolon. *)
Definition ivan_line : ReportLine :=
  mkReportLine (mkDate 2024 4 1) 1149%float "Petrenko; Ivan" "Acme" "Welder"
    "Olena" 1 1.

End Sample2.

(** * Properties *)

Import Store Server App Sample.

(** ** The tax overlay and the rendering of money *)

Section Money.

Open Scope float_scope.

(** C1: the tax overlay is a function of the report total [t] alone:
    single tax [t * 0.05], military tax [t * 0.01], social contribution
    1902.34 whatever [t] is, total tax their sum and net [t] minus the total
    tax; for a total of 1000 the block shows 50,00, 10,00, 1902,34, 1962,34
    and -962,34 (the comma is the decimal separator), the negative net being
    rendered like any other value. *)
Theorem tax_overlay_of_total :
  (forall t : float,
      singleTax (taxOverlay t) = t * 0.05
      /\ militaryTax (taxOverlay t) = t * 0.01
      /\ esv (taxOverlay t) = 1902.34
      /\ totalTax (taxOverlay t)
         = singleTax (taxOverlay t) + militaryTax (taxOverlay t) + esv (taxOverlay t)
      /\ net (taxOverlay t) = t - totalTax (taxOverlay t))
  /\ singleTax (taxOverlay 1000) = 50
  /\ militaryTax (taxOverlay 1000) = 10
  /\ totalTax (taxOverlay 1000) = 1962.34
  /\ PrimFloat.ltb (net (taxOverlay 1000)) 0 = true
  /\ renderTaxOverlay true (Some 1000)
     = Some ["50,00"; "10,00"; "1902,34"; "1962,34"; "-962,34"]%string.
Proof.
  split.
  - intros t. unfold taxOverlay; cbn. repeat split.
  - repeat split; vm_compute; reflexivity.
Qed.

End Money.

Section MoneyFormat.



























End MoneyFormat.

(** ** The replacement selector *)

Section Replacement.

(** C9: the replacement selector of the add and edit forms offers the
    first 500 rows of the pipeline list and no more; a row at position 500
    or beyond is not among the options, and, the ids of the list being
    distinct, its id is not among the values that can be chosen. *)
Theorem replacement_options_first_500 (pipeline : list PipelineRow) :
  replacementOptions pipeline = firstn 500 pipeline
  /\ List.length (replacementOptions pipeline) <= 500
  /\ (forall i, 500 <= i -> nth_error (replacementOptions pipeline) i = None)
  /\ (NoDup (map row_id pipeline) ->
      forall i r, 500 <= i -> nth_error pipeline i = Some r ->
                  ~ In (Some (row_id r)) (replacement_choices pipeline)).
Proof.
  unfold replacement_choices, replacementOptions.
  split; [reflexivity|]. split; [rewrite length_firstn; lia|].
  split.
  - intros i Hi. apply nth_error_None. rewrite length_firstn. lia.
  - intros Hnd i r Hi Hr [Habs|Hin]; [discriminate Habs|].
    apply in_map_iff in Hin as (r' & Heq & Hin'). injection Heq as Heq.
    rewrite <- (firstn_skipn 500 pipeline) in Hnd, Hr.
    rewrite map_app in Hnd.
    assert (Hlen : List.length (firstn 500 pipeline) = 500).
    { rewrite length_firstn. apply Nat.min_l.
      assert (i < List.length pipeline); [|lia].
      apply nth_error_Some. rewrite <- (firstn_skipn 500 pipeline) at 1. congruence. }
    rewrite nth_error_app2 in Hr by lia.
    apply nth_error_In in Hr.
    revert Hnd. generalize (in_map row_id _ _ Hin') (in_map row_id _ _ Hr).
    rewrite Heq. generalize (map row_id (firstn 500 pipeline)) (map row_id (skipn 500 pipeline)).
    intros l1 l2 H1 H2 Hnd. induction l1 as [|a l1 IH]; [destruct H1|].
    cbn in Hnd. inversion Hnd as [|? ? Hnotin Hnd']; subst.
    destruct H1 as [->|H1]; [apply Hnotin, in_or_app; now right|auto].
Qed.

Lemma numbered_pipeline_ids (n : nat) : NoDup (map row_id (numbered_pipeline n)).
Proof.
  unfold numbered_pipeline. rewrite map_map. cbn [numbered_row row_id].
  apply Finite.Injective_map_NoDup; [|apply seq_NoDup].
  intros a b. apply Nat2Z.inj.
Qed.

(** In a pipeline of 501 rows the last one cannot be chosen. *)
Lemma replacement_options_first_500_witness :
  ~ In (Some 501%Z) (replacement_choices (numbered_pipeline 501)).
Proof.
  destruct (replacement_options_first_500 (numbered_pipeline 501)) as (_ & _ & _ & H).
  apply (H (numbered_pipeline_ids 501) 500 (numbered_row 501)); [lia|reflexivity].
Defined.

End Replacement.

(** ** The CSV export: columns and empty cells *)

Section CsvColumns.
Import Csv.

Lemma mem_app (k : string) (l m : list string) :
  mem k (l ++ m) = mem k l || mem k m.
Proof. unfold mem. apply existsb_app. Qed.

Lemma filter_filter {A} (p q : A -> bool) (l : list A) :
  filter p (filter q l) = filter (fun x => q x && p x) l.
Proof.
  induction l as [|a l IH]; cbn; [reflexivity|].
  destruct (q a); cbn; [destruct (p a)|]; now rewrite IH.
Qed.

(** Adding keys to the set one by one appends the new ones in the order of
    their first occurrence. *)
Lemma fold_set_add (l acc : list string) :
  fold_left set_add l acc
  = (acc ++ filter (fun k => negb (mem k acc)) (first_occurrences l))%list.
Proof.
  revert acc; induction l as [|k l IH]; intros acc; cbn [fold_left first_occurrences].
  - cbn. now rewrite app_nil_r.
  - rewrite IH. unfold set_add. cbn [filter]. rewrite filter_filter.
    destruct (mem k acc) eqn:E; cbn [negb].
    + f_equal. apply filter_ext_in. intros x _.
      destruct (String.eqb_spec x k) as [->|]; cbn; [now rewrite E|reflexivity].
    + rewrite <- app_assoc. cbn [app]. do 2 f_equal. apply filter_ext_in. intros x _.
      rewrite mem_app. unfold mem at 2. cbn [existsb]. rewrite orb_false_r.
      rewrite negb_orb. apply andb_comm.
Qed.




Lemma first_occurrences_NoDup (l : list string) : NoDup (first_occurrences l).
Proof.
  induction l as [|a l IH]; cbn; constructor.
  - rewrite filter_In. intros [_ H]. now rewrite String.eqb_refl in H.
  - now apply NoDup_filter.
Qed.

Lemma own_absent (r : row) (c : string) : ~ In c (keys r) -> own r c = None.
Proof.
  induction r as [|[k v] r IH]; cbn; [reflexivity|].
  intros H. destruct (String.eqb_spec k c) as [->|]; [tauto|apply IH; tauto].
Qed.

(** A column the row lacks gives what the row inherits. *)
Lemma get_absent (proto r : row) (c : string) :
  ~ In c (keys r) -> get proto r c = get proto [] c.
Proof. intros H. unfold get. now rewrite (own_absent r c H). Qed.






End CsvColumns.

(** ** The CSV export: quoting and reading back *)

Section CsvRoundTrip.
Import Csv.

Lemma append_nil_r (s : string) : s ++ "" = s.
Proof. induction s as [|c s IH]; cbn; congruence. Qed.

Lemma append_assoc (s t u : string) : (s ++ t) ++ u = s ++ (t ++ u).
Proof. induction s as [|c s IH]; cbn; congruence. Qed.

Lemma plain_cons (c : ascii) (v : string) :
  plain (String c v) = true ->
  Ascii.eqb c dquote = false /\ Ascii.eqb c newline = false
  /\ Ascii.eqb c semicolon = false /\ plain v = true.
Proof.
  cbn. intros H. apply andb_true_iff in H as [H Hv].
  apply negb_true_iff in H. apply orb_false_iff in H as [H H3].
  apply orb_false_iff in H as [H1 H2]. auto.
Qed.

Lemma scan_plain (v rest f : string) (fs : list string) (rs : list (list string)) :
  plain v = true ->
  scan InPlain rest = (f :: fs) :: rs ->
  scan InPlain (v ++ rest) = ((v ++ f) :: fs) :: rs.
Proof.
  intros Hv Hrest. induction v as [|c v IH]; [exact Hrest|].
  apply plain_cons in Hv as (H1 & H2 & H3 & Hv).
  cbn [append scan]. rewrite H3, H2, (IH Hv). reflexivity.
Qed.

Lemma scan_at_separator (rest : string) :
  at_separator rest ->
  scan FieldStart rest = scan InPlain rest /\ scan QuoteSeen rest = scan InPlain rest.
Proof.
  intros [->|(r & [->| ->])]; split; reflexivity.
Qed.

Lemma scan_start_plain (v rest : string) :
  plain v = true -> at_separator rest ->
  scan FieldStart (v ++ rest) = scan InPlain (v ++ rest).
Proof.
  intros Hv Hrest. destruct v as [|c v].
  - apply scan_at_separator, Hrest.
  - apply plain_cons in Hv as (H1 & H2 & H3 & Hv).
    cbn [append scan]. now rewrite H1.
Qed.

Lemma scan_quoted (v rest f : string) (fs : list string) (rs : list (list string)) :
  at_separator rest ->
  scan InPlain rest = (f :: fs) :: rs ->
  scan InQuoted (double_quotes v ++ String dquote rest) = ((v ++ f) :: fs) :: rs.
Proof.
  intros Hsep Hrest. induction v as [|c v IH].
  - cbn [double_quotes append scan]. rewrite Ascii.eqb_refl.
    now rewrite (proj2 (scan_at_separator rest Hsep)).
  - cbn [double_quotes]. destruct (Ascii.eqb c dquote) eqn:E.
    + apply Ascii.eqb_eq in E. subst c.
      cbn [append scan]. rewrite !Ascii.eqb_refl, IH. reflexivity.
    + cbn [append scan]. rewrite E, IH. reflexivity.
Qed.

(** Reading one written field. *)
Lemma scan_field (piece v rest f : string) (fs : list string)
    (rs : list (list string)) :
  renders piece v -> at_separator rest ->
  scan InPlain rest = (f :: fs) :: rs ->
  scan FieldStart (piece ++ rest) = ((v ++ f) :: fs) :: rs.
Proof.
  intros [[-> Hv]| ->] Hsep Hrest.
  - rewrite scan_start_plain by assumption. now apply scan_plain.
  - unfold quoted. cbn [append scan]. rewrite Ascii.eqb_refl.
    rewrite append_assoc. cbn [append]. now apply scan_quoted.
Qed.

(** Reading one written record, up to the end of its line. *)
Lemma scan_record (pieces vs : list string) (rest : string)
    (t : list (list string)) :
  Forall2 renders pieces vs ->
  rest = "" \/ (exists r, rest = String newline r) ->
  scan InPlain rest = [""] :: t ->
  scan FieldStart (String.concat ";" pieces ++ rest) = as_read vs :: t.
Proof.
  intros HF Hsep Hrest.
  assert (Hsep' : at_separator rest).
  { destruct Hsep as [->|(r & ->)]; [now left|right; eauto]. }
  induction HF as [|p v ps vs' Hpv HF IH].
  - cbn. now rewrite (proj1 (scan_at_separator rest Hsep')).
  - destruct HF as [|p' v' ps' vs'' Hpv' HF'].
    + cbn [String.concat as_read].
      rewrite (scan_field p v rest "" [] t Hpv Hsep' Hrest).
      now rewrite append_nil_r.
    + change (String.concat ";" (p :: p' :: ps'))
        with (p ++ ";" ++ String.concat ";" (p' :: ps')).
      rewrite append_assoc.
      change ((";" ++ String.concat ";" (p' :: ps')) ++ rest)
        with (String semicolon (String.concat ";" (p' :: ps') ++ rest)).
      rewrite (scan_field p v _ "" (v' :: vs'') t Hpv).
      * now rewrite append_nil_r.
      * right; eauto.
      * cbn [scan]. change (Ascii.eqb semicolon semicolon) with true. cbv iota.
        rewrite IH. reflexivity.
Qed.

(** Reading a written table back gives its records. *)
Lemma scan_table (pss vss : list (list string)) :
  Forall2 (Forall2 renders) pss vss -> pss <> [] ->
  parse_csv (String.concat (String newline "") (map (String.concat ";") pss))
  = map as_read vss.
Proof.
  unfold parse_csv. intros HF. induction HF as [|ps vs pss' vss' Hr HF IH]; [congruence|].
  intros _. destruct HF as [|ps' vs' pss'' vss'' Hr' HF'].
  - cbn [map String.concat].
    rewrite <- (append_nil_r (String.concat ";" ps)).
    apply scan_record; auto.
  - change (String.concat (String newline "") (map (String.concat ";") (ps :: ps' :: pss'')))
      with (String.concat ";" ps
            ++ String newline (String.concat (String newline "")
                                 (map (String.concat ";") (ps' :: pss'')))).
    cbn [map]. apply scan_record; [assumption|right; eauto|].
    cbn [scan]. change (Ascii.eqb newline semicolon) with false.
    change (Ascii.eqb newline newline) with true. cbv iota.
    unfold end_record. f_equal. apply IH. discriminate.
Qed.

Lemma needs_quoting_plain (s : string) : needs_quoting s = false -> plain s = true.
Proof.
  induction s as [|c s IH]; cbn; [reflexivity|].
  intros H. apply orb_false_iff in H as [Hc Hs]. rewrite (IH Hs), andb_true_r.
  unfold special in Hc. apply orb_false_iff in Hc as [Hc H4].
  apply orb_false_iff in Hc as [Hc H3]. apply orb_false_iff in Hc as [H1 H2].
  now rewrite H1, H3, H4.
Qed.

Lemma escape_text (v : value) :
  escape v = if needs_quoting (text_of v) then quoted (text_of v) else text_of v.
Proof. destruct v; reflexivity. Qed.

Lemma escape_renders (v : value) : renders (escape v) (text_of v).
Proof.
  rewrite escape_text. destruct (needs_quoting (text_of v)) eqn:E.
  - now right.
  - left. split; [reflexivity|now apply needs_quoting_plain].
Qed.

Lemma needs_quoting_iff (s : string) :
  needs_quoting s = true
  <-> exists c, In c (list_ascii_of_string s)
                /\ (c = dquote \/ c = comma \/ c = newline \/ c = semicolon).
Proof.
  induction s as [|a s IH]; cbn.
  - split; [discriminate|intros (c & [] & _)].
  - rewrite orb_true_iff, IH. unfold special. rewrite !orb_true_iff, !Ascii.eqb_eq.
    split.
    + intros [H|(c & Hc & H)]; [exists a; tauto|exists c; tauto].
    + intros (c & [->|Hc] & H); [left; tauto|right; eauto].
Qed.

(** C4 (amended): the export is semicolon-delimited; a value is wrapped in
    double quotes exactly when its text holds a double quote, a comma, a
    newline or a semicolon, and then every quote inside it is doubled; and,
    the keys of the rows being free of quotes, newlines and semicolons (the
    header is written unescaped), reading the export back gives the header
    and, for every row and column, the text of the value the row has or
    inherits under that name: the text of its own value for a column the
    row has, and the empty text for a column it neither has nor
    inherits. *)
Theorem export_quotes_and_reads_back (proto : row) :
  (forall v, escape v = if needs_quoting (text_of v)
                        then String dquote (double_quotes (text_of v) ++ String dquote "")
                        else text_of v)
  /\ (forall s, needs_quoting s = true
                <-> exists c, In c (list_ascii_of_string s)
                              /\ (c = dquote \/ c = comma \/ c = newline \/ c = semicolon))
  /\ (forall rows : list row,
         (forall k, In k (collect_columns rows) -> plain k = true) ->
         parse_csv (downloadCSV proto rows)
         = as_read (collect_columns rows)
           :: map (fun r => as_read (map (fun c => text_of (get proto r c))
                                         (collect_columns rows)))
                  rows)
  /\ (forall r c v, own r c = Some v -> text_of (get proto r c) = text_of v)
  /\ (forall r c, own r c = None -> own proto c = None ->
                  text_of (get proto r c) = "").
Proof.
  split; [exact escape_text|]. split; [exact needs_quoting_iff|].
  split;
    [|split; [intros r c v H; unfold get; now rewrite H
             |intros r c H1 H2; unfold get; now rewrite H1, H2]].
  intros rows Hkeys. unfold downloadCSV.
  set (cols := collect_columns rows) in *.
  replace (String.concat ";" cols :: map (line proto cols) rows)
    with (map (String.concat ";")
              (cols :: map (fun r => map (fun c => escape (get proto r c)) cols) rows))
    by (cbn [map]; now rewrite map_map).
  rewrite (scan_table _ (cols :: map (fun r => map (fun c => text_of (get proto r c)) cols)
                                     rows)).
  - cbn [map]. now rewrite map_map.
  - constructor.
    + clearbody cols. induction cols as [|k cols IH]; constructor.
      * left. split; [reflexivity|]. apply Hkeys. now left.
      * apply IH. intros k' Hk'. apply Hkeys. now right.
    + clear Hkeys. clearbody cols.
      induction rows as [|r rows IH]; cbn [map]; constructor; [|exact IH].
      clear IH. induction cols as [|c cols IHc]; cbn [map]; constructor; [|exact IHc].
      apply escape_renders.
  - discriminate.
Qed.

(** The sample rows whose values hold a semicolon, a quote and a newline
    read back as they were. *)
Lemma export_quotes_and_reads_back_witness :
  parse_csv (downloadCSV object_prototype quoted_rows)
  = [["name"; "note"; "paid"];
     ["a;b"; String dquote "q"; ""];
     [String newline "x"; ""; ""]].
Proof.
  rewrite (proj1 (proj2 (proj2 (export_quotes_and_reads_back object_prototype)))
             quoted_rows).
  - vm_compute. reflexivity.
  - vm_compute. intros k [<-|[<-|[<-|[]]]]; reflexivity.
Defined.

(** C4, as stated, fails: a value with a comma, which holds no delimiter,
    quote or newline, is wrapped in quotes all the same. *)
Lemma comma_is_quoted :
  plain "a,b" = true
  /\ escape (VString "a,b") = quoted "a,b"
  /\ ~ (forall s, escape (VString s) = quoted s <-> plain s = false).
Proof.
  split; [reflexivity|]. split; [reflexivity|].
  intros H. destruct (H "a,b") as [H1 _].
  specialize (H1 eq_refl). discriminate H1.
Qed.

End CsvRoundTrip.

(** ** Comparisons of doubles with zero *)

Section FloatOrder.

Lemma Prim2SF_zero : Prim2SF 0%float = S754_zero false.
Proof. reflexivity. Qed.

Lemma SFcompare_refl_pos (x : spec_float) :
  SFcompare (S754_zero false) x = Some Lt -> SFcompare x x = Some Eq.
Proof.
  destruct x as [s| [|] | |[|] m e]; cbn; try discriminate; intros _; try reflexivity.
  change (Some match Z.compare e e with
               | Eq => Pos.compare_cont Eq m m
               | Lt => Lt
               | Gt => Gt
               end = Some Eq).
  now rewrite Z.compare_refl, Pcompare_refl.
Qed.

(** A positive amount is truthy and is not [<= 0]. *)
Lemma positive_amount (x : float) :
  PrimFloat.ltb 0 x = true ->
  JS.truthy_number x = true /\ PrimFloat.leb x 0 = false.
Proof.
  unfold JS.truthy_number, PrimFloat.is_zero, PrimFloat.is_nan.
  rewrite FloatAxioms.ltb_spec, FloatAxioms.leb_spec, !FloatAxioms.eqb_spec, Prim2SF_zero.
  unfold SFltb, SFleb, SFeqb.
  destruct (SFcompare (S754_zero false) (Prim2SF x)) as [[| |]|] eqn:E; try discriminate.
  intros _. rewrite (SFcompare_refl_pos _ E).
  destruct (Prim2SF x) as [s| [|] | |[|] m e]; cbn in *; try discriminate; auto.
Qed.

(** An amount that is [<= 0] is not positive. *)
Lemma nonpositive_amount (x : float) :
  PrimFloat.leb x 0 = true -> PrimFloat.ltb 0 x = false.
Proof.
  rewrite FloatAxioms.ltb_spec, FloatAxioms.leb_spec, Prim2SF_zero. unfold SFltb, SFleb.
  destruct (Prim2SF x) as [s| [|] | |[|] m e]; cbn; try discriminate; auto.
Qed.

End FloatOrder.

(** ** The payment form *)

Section Payments.

(** C5: with an application open in the edit form, adding a payment fails
    with a validation message when the date is missing or the amount is
    [<= 0], and then the store is unchanged (only the message is set; the
    server operation rejects the same payload with a validation error);
    with a date and an amount [> 0] a new Payment row is appended to the
    payments of the store for the application being edited (a row of the
    store), the applications being left as they are. *)
Theorem add_payment_validation (today : Date) (w : World) (current : PipelineRow) :
  openEditApp (ui w) = Some current ->
  let pf := payForm (ui w) in
  let w' := addPaymentToCurrent today w in
  ((pf_paid_date pf = None \/ PrimFloat.leb (pf_amount pf) 0 = true) ->
   db w' = db w
   /\ (exists m, (m = msg_pay_date \/ m = msg_pay_amount)
                 /\ ui w' = setErr (Some m) (ui w))
   /\ (exists field,
          addPayment (db w) (row_id current) (payment_payload pf)
          = (db w, inl (ValidationError field))))
  /\ (forall d,
         pf_paid_date pf = Some d -> PrimFloat.ltb 0 (pf_amount pf) = true ->
         is_some (find_application (db w) (row_id current)) = true ->
         Store.payments (db w')
         = (Store.payments (db w)
            ++ [mkPayment (payments_seq (db w)) (row_id current) d (pf_amount pf)
                  (or_null (pf_note pf)) (clock (db w))])%list
         /\ applications (db w') = applications (db w)
         /\ err (ui w') = None).
Proof.
  intros Hopen pf w'. subst w'. unfold addPaymentToCurrent. rewrite Hopen.
  fold pf. split.
  - intros Hbad.
    assert (Hv : exists m, (m = msg_pay_date \/ m = msg_pay_amount)
                           /\ validate_payment pf = Some m).
    { unfold validate_payment. destruct Hbad as [Hd|Ha].
      - rewrite Hd. cbn. eauto.
      - destruct (pf_paid_date pf); cbn; [|eauto].
        rewrite Ha, orb_true_r. eauto. }
    destruct Hv as (m & Hm & ->). cbv iota. cbn [db ui].
    split; [reflexivity|]. split; [eauto|].
    unfold addPayment, payment_payload. cbn [pc_paid_date pc_amount pc_note].
    destruct Hbad as [Hd|Ha].
    + rewrite Hd. eauto.
    + destruct (pf_paid_date pf); [|eauto].
      rewrite (nonpositive_amount _ Ha). eauto.
  - intros d Hd Hpos Hexists.
    destruct (positive_amount _ Hpos) as [Ht Hle].
    unfold validate_payment. rewrite Hd, Ht, Hle. cbn [is_some negb orb].
    cbv iota. cbv zeta. cbn [payForm setLoading]. fold pf.
    unfold addPayment, payment_payload. cbn [pc_paid_date pc_amount pc_note].
    rewrite Hd, Hpos.
    unfold insert_payment. rewrite Hexists. cbv iota beta zeta.
    unfold refreshPipeline. cbn. auto.
Qed.

(** A payment of 25 added to Ivan's application in the sample store. *)
Lemma add_payment_validation_witness :
  Store.payments (db (addPaymentToCurrent today paying_world))
  = [march_5; march_31; april_1; mkPayment 4 1 today 25%float None 30].
Proof.
  destruct (add_payment_validation today paying_world ivan_row eq_refl) as [_ H].
  destruct (H today eq_refl eq_refl eq_refl) as [-> _]. reflexivity.
Defined.

End Payments.

(** ** The application forms *)

Section Applications.

Lemma submit_invalid (today : Date) (w : World) (m : string) :
  validate_add (addForm (ui w)) = Some m ->
  submitAddApplication today w
  = mkWorld (setErr (Some m) (setErr None (ui w))) (db w) (session w).
Proof.
  intros H. unfold submitAddApplication. cbn [addForm setErr]. now rewrite H.
Qed.


(** The outcomes of creating an Application on the server. *)
Lemma createApplication_outcome (d : DB) (p : ApplicationCreate) :
  (exists e, createApplication d p = (d, inl e))
  \/ (exists a d',
         createApplication d p = (d', inr a)
         /\ candidates d' = candidates d
         /\ applications d' = (applications d ++ [a])%list
         /\ a_candidate_id a = ac_candidate_id p
         /\ a_status a = ac_status p
         /\ a_rejection_date a = ac_rejection_date p
         /\ a_start_date a = ac_start_date p).
Proof.
  unfold createApplication.
  destruct (ac_date_contacted p) as [contacted|]; [|left; eauto].
  destruct (check_status_dates _ _ _); [left; eauto|].
  destruct (check_replacement _ _); [left; eauto|].
  unfold insert_application.
  destruct (application_references_hold _ _); [|left; eauto].
  right. eexists. eexists. repeat split.
Qed.

(** The outcomes of saving an Application on the server. *)
Lemma updateApplication_outcome (d : DB) (id : Z) (p : ApplicationUpdate) :
  (exists e, updateApplication d id p = (d, inl e))
  \/ (exists a d' change,
         updateApplication d id p = (d', inr a)
         /\ candidates d' = candidates d
         /\ applications d'
            = map (fun x => if (a_id x =? id)%Z then change x else x) (applications d)
         /\ (forall x, a_status (change x) = au_status p
                       /\ a_rejection_date (change x) = au_rejection_date p
                       /\ a_start_date (change x) = au_start_date p)).
Proof.
  unfold updateApplication.
  destruct (find_application d id) as [old|]; [|left; eauto].
  destruct (au_date_contacted p) as [contacted|]; [|left; eauto].
  destruct (check_status_dates _ _ _); [left; eauto|].
  destruct (check_replacement _ _); [left; eauto|].
  destruct (au_replacement_of_id p) as [target|].
  - destruct (is_some (find_application d target)); [|left; eauto].
    right. eexists. eexists. eexists. split; [reflexivity|]. repeat split.
  - right. eexists. eexists. eexists. split; [reflexivity|]. repeat split.
Qed.

Lemma validate_add_None (f : AddForm) :
  validate_add f = None
  <-> JS.truthy_string (trim (f_full_name f)) = true
      /\ truthy_id (f_vacancy_id f) = true
      /\ truthy_id (f_recruiter_id f) = true
      /\ (f_status f = Rejected -> f_rejection_date f <> None)
      /\ (f_status f = Hired -> f_start_date f <> None)
      /\ (f_paid f = true -> f_paid_date f <> None).
Proof.
  unfold validate_add.
  destruct (JS.truthy_string (trim (f_full_name f))); cbn;
    [|split; [discriminate|intros (H & _); discriminate H]].
  destruct (truthy_id (f_vacancy_id f)); cbn;
    [|split; [discriminate|intros (_ & H & _); discriminate H]].
  destruct (truthy_id (f_recruiter_id f)); cbn;
    [|split; [discriminate|intros (_ & _ & H & _); discriminate H]].
  destruct (f_status f), (f_rejection_date f), (f_start_date f), (f_paid f),
    (f_paid_date f); cbn; split; try discriminate; intros H;
    repeat split; try reflexivity; try discriminate;
    decompose [and] H;
    repeat match goal with
           | H : _ = _ -> _ <> _ |- _ => specialize (H eq_refl)
           end; congruence.
Qed.







(** What a submit does to the store: nothing when the form is refused;
    otherwise the Candidate is inserted, and then the Application or not. *)
Lemma submit_outcome (today : Date) (w : World) :
  let f := addForm (ui w) in
  let w' := submitAddApplication today w in
  let c := mkCandidate (candidates_seq (db w)) (trim (f_full_name f))
             (or_null (f_phone f)) (or_null (f_email f)) (or_null (f_notes f)) in
  validate_add f = None ->
  candidates (db w') = (candidates (db w) ++ [c])%list
  /\ ((applications (db w') = applications (db w)
       /\ exists e, err (ui w') = Some (describe e))
      \/ (exists a,
             applications (db w') = (applications (db w) ++ [a])%list
             /\ a_candidate_id a = cand_id c
             /\ a_status a = f_status f
             /\ a_rejection_date a = f_rejection_date f
             /\ a_start_date a = f_start_date f
             /\ err (ui w') = None)).
Proof.
  intros f w' c Hv. subst w'. unfold submitAddApplication.
  cbn [addForm setErr]. fold f. rewrite Hv.
  unfold createCandidate, insert_candidate, candidate_payload.
  cbn [cc_full_name cc_phone cc_email cc_notes cand_id]. fold c.
  match goal with
  | |- context [createApplication ?d ?p] =>
      destruct (createApplication_outcome d p)
        as [(e & ->)|(a & d' & -> & Hc & Ha & Hid & Hs & Hr & Hst)]
  end.
  - cbn. split; [reflexivity|]. left. split; [reflexivity|eauto].
  - cbn [db ui refreshPipeline setLoading err setErr setPipeline].
    rewrite Hc, Ha. cbn. split; [reflexivity|]. right. exists a.
    cbn in Hid, Hs, Hr, Hst. repeat split; assumption.
Qed.

(** What a save does to the applications of the store. *)
Lemma save_outcome (row : PipelineRow) (w : World) :
  let w' := saveEditApplication row w in
  db w' = db w
  \/ (validate_edit row = None
      /\ exists change,
          applications (db w')
          = map (fun x => if (a_id x =? row_id row)%Z then change x else x)
                (applications (db w))
          /\ forall x, a_status (change x) = row_status row
                       /\ a_rejection_date (change x) = row_rejection_date row
                       /\ a_start_date (change x) = row_start_date row).
Proof.
  intros w'. subst w'. unfold saveEditApplication.
  destruct (validate_edit row) eqn:Hv; [now left|].
  destruct (updateApplication_outcome (db w) (row_id row) (update_payload row))
    as [(e & ->)|(a & d' & change & -> & _ & Ha & Hch)].
  - now left.
  - right. split; [reflexivity|]. exists change. split; [exact Ha|exact Hch].
Qed.








(** C7 (amended): the create-Candidate-then-create-Application sequence is
    two requests without a transaction.  A form that fails the validation
    creates nothing.  Otherwise the Candidate is created first and stays in
    the store whether or not creating the Application then succeeds: either
    the Application is refused, the error is shown and the applications are
    as before, or the Application is stored and refers to the Candidate. *)
Theorem candidate_created_before_application (today : Date) (w : World) :
  let f := addForm (ui w) in
  let w' := submitAddApplication today w in
  let c := mkCandidate (candidates_seq (db w)) (trim (f_full_name f))
             (or_null (f_phone f)) (or_null (f_email f)) (or_null (f_notes f)) in
  (forall m, validate_add f = Some m -> db w' = db w)
  /\ (validate_add f = None ->
      candidates (db w') = (candidates (db w) ++ [c])%list
      /\ ((applications (db w') = applications (db w)
           /\ exists e, err (ui w') = Some (describe e))
          \/ (exists a,
                 applications (db w') = (applications (db w) ++ [a])%list
                 /\ a_candidate_id a = cand_id c
                 /\ err (ui w') = None))).
Proof.
  intros f w' c. split.
  - intros m Hv. subst w'. now rewrite (submit_invalid today w m Hv).
  - intros Hv. destruct (submit_outcome today w Hv) as [Hc [H|(a & Ha & Hid & _ & _ & _ & He)]].
    + split; [exact Hc|now left].
    + split; [exact Hc|]. right. exists a. repeat split; assumption.
Qed.

(** The add form with the contact date cleared, on the sample store. *)
Lemma candidate_created_before_application_witness :
  candidates (db (submitAddApplication today cleared_world))
  = [mkCandidate 1 "Petro Bondar" None None None].
Proof.
  destruct (candidate_created_before_application today cleared_world) as [_ H].
  destruct (H eq_refl) as [-> _]. reflexivity.
Defined.

(** C7, as stated, fails: with the contact date cleared in the add form the
    Candidate is created, the Application is refused, and the Candidate is
    left in the store without an Application. *)
Lemma orphaned_candidate :
  orphans (db cleared_world) = []
  /\ err (ui (submitAddApplication today cleared_world))
     = Some "validation error: date_contacted"
  /\ applications (db (submitAddApplication today cleared_world)) = []
  /\ orphans (db (submitAddApplication today cleared_world))
     = [mkCandidate 1 "Petro Bondar" None None None]
  /\ ~ (forall t w,
           orphans (db w) = [] -> orphans (db (submitAddApplication t w)) = []).
Proof.
  repeat (split; [vm_compute; reflexivity|]).
  intros H. specialize (H today cleared_world eq_refl). vm_compute in H.
  discriminate H.
Qed.

End Applications.

(** ** Sorting keeps the elements *)

Section Sorting.

Context {A : Type} (le : A -> A -> bool).

Lemma insert_by_In (x y : A) (l : list A) :
  In x (insert_by le y l) <-> x = y \/ In x l.
Proof.
  induction l as [|z l IH]; cbn; [intuition congruence|].
  destruct (le y z); cbn; [intuition congruence|]. rewrite IH. intuition congruence.
Qed.

Lemma sort_by_In (x : A) (l : list A) : In x (sort_by le l) <-> In x l.
Proof.
  unfold sort_by. induction l as [|y l IH]; cbn; [tauto|].
  rewrite insert_by_In, IH. intuition congruence.
Qed.



End Sorting.

(** ** Joins under the references of the schema *)

Section Joins.

Lemma is_some_Some {A} (o : option A) : is_some o = true -> exists a, o = Some a.
Proof. destruct o; [eauto|discriminate]. Qed.

Lemma vacancy_client (d : DB) (id : Z) (v : Vacancy) :
  references_resolve d = true -> find_vacancy d id = Some v ->
  exists cl, find_client d (v_client_id v) = Some cl.
Proof.
  unfold references_resolve. intros H Hv.
  apply andb_true_iff in H as [H _]. apply andb_true_iff in H as [_ H].
  rewrite forallb_forall in H. apply find_some in Hv as [Hv _].
  apply is_some_Some. exact (H v Hv).
Qed.

(** Every application of a store whose references resolve has its row. *)
Lemma pipeline_row_resolves (d : DB) (a : Application) :
  references_resolve d = true -> In a (applications d) ->
  exists r, pipeline_row d a = Some r /\ row_id r = a_id a
            /\ row_recruiter_id r = a_recruiter_id a.
Proof.
  intros H Ha. pose proof H as H0. unfold references_resolve in H.
  apply andb_true_iff in H as [H _]. apply andb_true_iff in H as [H _].
  rewrite forallb_forall in H. specialize (H a Ha).
  unfold application_references_hold in H.
  apply andb_true_iff in H as [H _]. apply andb_true_iff in H as [H H3].
  apply andb_true_iff in H as [H1 H2].
  apply is_some_Some in H1 as (cand & H1). apply is_some_Some in H2 as (vac & H2).
  apply is_some_Some in H3 as (rec & H3).
  destruct (vacancy_client d _ vac H0 H2) as (cl & H4).
  unfold pipeline_row. rewrite H1, H2, H3, H4. eexists. repeat split.
Qed.


End Joins.

(** ** Pipeline query *)

Section Pipeline.

Lemma pipeline_row_recruiter (d : DB) (a : Application) (r : PipelineRow) :
  pipeline_row d a = Some r -> row_recruiter_id r = a_recruiter_id a.
Proof.
  unfold pipeline_row.
  destruct (find_candidate d (a_candidate_id a)); [|discriminate].
  destruct (find_vacancy d (a_vacancy_id a)) as [vac|]; [|discriminate].
  destruct (find_recruiter d (a_recruiter_id a)); [|discriminate].
  destruct (find_client d (v_client_id vac)); [|discriminate]. now intros [= <-].
Qed.

Lemma list_pipeline_In (d : DB) (caller : Caller) (q : PipelineQuery)
    (r : PipelineRow) :
  In r (list_pipeline d caller q)
  <-> exists a, In a (applications d) /\ pipeline_row d a = Some r
                /\ row_matches caller q r = true.
Proof.
  unfold list_pipeline. rewrite sort_by_In, filter_In, in_flat_map. split.
  - intros [(a & Ha & Hr) Hm]. exists a. split; [assumption|]. split; [|assumption].
    destruct (pipeline_row d a); cbn in Hr; [|contradiction].
    destruct Hr as [->|[]]. reflexivity.
  - intros (a & Ha & Hr & Hm). split; [|assumption].
    exists a. split; [assumption|]. rewrite Hr. now left.
Qed.

(** C2: for a caller who is not an admin and is bound to the recruiter
    [own], the pipeline request returns exactly the rows of the
    Applications of [own] that the other filters keep; whatever recruiter
    the filters ask for makes no difference; without other filters these
    are the rows of all the Applications of [own], one for each of them
    when the references of the store resolve.  The front end passes the
    requested recruiter on as it is, and its lock of the recruiter for
    non-admin accounts touches the add form only, not the filters: the
    scoping is the server's. *)
Theorem non_admin_sees_own_rows (w : World) (own : Z) (params : Filters) :
  session w = User own ->
  (forall requested,
      api_pipeline w (asking_for requested params) = api_pipeline w params)
  /\ (forall r, In r (api_pipeline w params)
                <-> exists a, In a (applications (db w))
                              /\ a_recruiter_id a = own
                              /\ pipeline_row (db w) a = Some r
                              /\ filters_match (pipeline_query params) r = true)
  /\ (forall r, In r (api_pipeline w no_filters)
                <-> exists a, In a (applications (db w))
                              /\ a_recruiter_id a = own
                              /\ pipeline_row (db w) a = Some r)
  /\ (references_resolve (db w) = true ->
      forall a, In a (applications (db w)) -> a_recruiter_id a = own ->
                exists r, In r (api_pipeline w no_filters) /\ row_id r = a_id a)
  /\ (forall requested,
         q_recruiter_id (pipeline_query (asking_for requested params))
         = if truthy_id requested then requested else None)
  /\ filters (lockRecruiter (ui w)) = filters (ui w).
Proof.
  intros Hs.
  assert (Hin : forall q r,
             In r (list_pipeline (db w) (User own) q)
             <-> exists a, In a (applications (db w)) /\ a_recruiter_id a = own
                           /\ pipeline_row (db w) a = Some r
                           /\ filters_match q r = true).
  { intros q r. rewrite list_pipeline_In. unfold row_matches. cbn [scoped_recruiter when].
    split.
    - intros (a & Ha & Hr & Hm). apply andb_true_iff in Hm as [Hown Hf].
      exists a. repeat split; try assumption.
      rewrite <- (pipeline_row_recruiter _ _ _ Hr). now apply Z.eqb_eq.
    - intros (a & Ha & Hown & Hr & Hf). exists a. repeat split; try assumption.
      rewrite Hf, andb_true_r. apply Z.eqb_eq.
      now rewrite (pipeline_row_recruiter _ _ _ Hr). }
  unfold api_pipeline. rewrite Hs. split.
  { intros requested. unfold list_pipeline. do 2 f_equal. }
  split; [intros r; apply Hin|]. split.
  { intros r. rewrite Hin. split.
    - intros (a & Ha & Hown & Hr & _). eauto.
    - intros (a & Ha & Hown & Hr). exists a. repeat split; assumption. }
  split; [|split; [reflexivity|]].
  - intros Href a Ha Hown.
    destruct (pipeline_row_resolves (db w) a Href Ha) as (r & Hr & Hid & _).
    exists r. split; [|exact Hid]. apply Hin. exists a. repeat split; assumption.
  - unfold lockRecruiter. destruct (authUser (ui w)) as [usr|]; [|reflexivity].
    destruct (u_role usr); reflexivity.
Qed.

(** Taras, bound to recruiter 2, asks for the rows of recruiter 1 and gets
    his own row. *)
Lemma non_admin_sees_own_rows_witness :
  map row_id (api_pipeline taras_world (asking_for (Some 1%Z) no_filters)) = [2%Z].
Proof.
  destruct (non_admin_sees_own_rows taras_world 2 no_filters eq_refl) as [H _].
  rewrite H. vm_compute. reflexivity.
Defined.

End Pipeline.

(** ** Earnings report *)

Section Earnings.






End Earnings.

(** * Further properties of the front end *)

(** ** Storage *)

Section StorageFacts.
Import Web.

Lemma getItem_setItem (s : Storage) (key value : string) :
  getItem (setItem s key value) key = Some value.
Proof.
  induction s as [|[k v] s IH]; cbn.
  - now rewrite String.eqb_refl.
  - destruct (String.eqb k key) eqn:E; cbn; rewrite E; [reflexivity|exact IH].
Qed.

Lemma getItem_setItem_other (s : Storage) (key value other : string) :
  other <> key -> getItem (setItem s key value) other = getItem s other.
Proof.
  intros Hne. induction s as [|[k v] s IH]; cbn.
  - destruct (String.eqb_spec key other); [congruence|reflexivity].
  - destruct (String.eqb_spec k key) as [->|]; cbn.
    + destruct (String.eqb_spec key other); [congruence|reflexivity].
    + now rewrite IH.
Qed.

Lemma getItem_removeItem (s : Storage) (key : string) :
  getItem (removeItem s key) key = None.
Proof.
  unfold removeItem. induction s as [|[k v] s IH]; [reflexivity|]. cbn [filter fst].
  destruct (String.eqb k key) eqn:E; cbn [negb getItem]; [exact IH|]. now rewrite E.
Qed.

Lemma getItem_removeItem_other (s : Storage) (key other : string) :
  other <> key -> getItem (removeItem s key) other = getItem s other.
Proof.
  intros Hne. unfold removeItem.
  induction s as [|[k v] s IH]; [reflexivity|]. cbn [filter fst].
  destruct (String.eqb_spec k key) as [->|]; cbn [negb getItem].
  - rewrite IH. destruct (String.eqb_spec key other); [congruence|reflexivity].
  - now rewrite IH.
Qed.

End StorageFacts.

(** ** The request of [http] *)

Section Http.
Import Web.

(** X1: a call of [http] whose options carry no headers (every wrapper of
    [api]) sends the JSON content type and, exactly when a token is stored,
    the bearer authorization of that token; options that carry headers
    replace these defaults altogether. *)
Theorem http_request_headers (prod : bool) (b : Browser) (path : string)
    (options : option Options) :
  ((forall o, options = Some o -> o_headers o = None) ->
   req_headers (request prod b path options)
   = ("Content-Type", "application/json")
     :: match getToken b with
        | Some token =>
            if JS.truthy_string token then [("Authorization", "Bearer " ++ token)]
            else []
        | None => []
        end)
  /\ (forall o h, options = Some o -> o_headers o = Some h ->
                  req_headers (request prod b path options) = h).
Proof.
  split.
  - intros Hnone. unfold request, merged_headers.
    assert (E : match options with
                | Some o => match o_headers o with Some h => h | None => [] end
                | None => []
                end = @nil (string * string)).
    { destruct options as [o|]; [|reflexivity]. now rewrite (Hnone o eq_refl). }
    destruct options as [o|].
    + rewrite (Hnone o eq_refl). cbn [spread fold_left].
      destruct (getToken b) as [t|]; [|reflexivity]. destruct (JS.truthy_string t); reflexivity.
    + cbn [spread fold_left].
      destruct (getToken b) as [t|]; [|reflexivity]. destruct (JS.truthy_string t); reflexivity.
  - intros o h -> Hh. unfold request. now rewrite Hh.
Qed.

(** A POST of a wrapper with the token abc in session storage. *)
Lemma http_request_headers_witness :
  req_headers (request true (mkBrowser [] [(TOKEN_KEY, "abc")]) "/clients"
                 (Some Sample2.post))
  = [("Content-Type", "application/json"); ("Authorization", "Bearer abc")].
Proof.
  destruct (http_request_headers true (mkBrowser [] [(TOKEN_KEY, "abc")]) "/clients"
              (Some Sample2.post)) as [H _].
  rewrite H; [reflexivity|]. intros o [= <-]. reflexivity.
Defined.

End Http.

(** ** The query string of [api.pipeline] *)

Section QueryString.
Import Web.

Lemma chars_app (s t : string) :
  list_ascii_of_string (s ++ t)
  = (list_ascii_of_string s ++ list_ascii_of_string t)%list.
Proof.
  induction s as [|c s IH]; cbn; [reflexivity|]. now rewrite IH.
Qed.

Lemma count_char_app (c : ascii) (s t : string) :
  count_char c (s ++ t) = count_char c s + count_char c t.
Proof.
  induction s as [|a s IH]; cbn; [reflexivity|]. rewrite IH. lia.
Qed.

Lemma count_char_absent (c : ascii) (s : string) :
  (forall x, In x (list_ascii_of_string s) -> x <> c) -> count_char c s = 0.
Proof.
  induction s as [|a s IH]; cbn; [reflexivity|]. intros H.
  destruct (Ascii.eqb_spec a c) as [->|]; [now destruct (H c); [left|]|].
  apply IH. intros x Hx. apply H. now right.
Qed.

Lemma encode_byte_safe (c : ascii) :
  forallb (fun x => unreserved x || Ascii.eqb x "+" || Ascii.eqb x "%")
          (list_ascii_of_string (encode_byte c)) = true.
Proof.
  destruct c as [[|] [|] [|] [|] [|] [|] [|] [|]]; reflexivity.
Qed.

Lemma urlencode_safe (s : string) (x : ascii) :
  In x (list_ascii_of_string (urlencode s)) ->
  unreserved x = true \/ x = "+"%char \/ x = "%"%char.
Proof.
  induction s as [|c s IH]; cbn; [tauto|].
  rewrite chars_app, in_app_iff. intros [H|H]; [|now apply IH].
  pose proof (encode_byte_safe c) as Hs. rewrite forallb_forall in Hs.
  specialize (Hs x H). rewrite !orb_true_iff, !Ascii.eqb_eq in Hs. tauto.
Qed.

Lemma urlencode_no_separator (c : ascii) (s : string) :
  c = "&"%char \/ c = "="%char -> count_char c (urlencode s) = 0.
Proof.
  intros Hc. apply count_char_absent. intros x Hx ->.
  destruct (urlencode_safe s c Hx) as [H|[H|H]]; destruct Hc as [-> | ->];
    discriminate H.
Qed.

Lemma count_char_concat (c : ascii) (sep : string) (l : list string) :
  count_char c (String.concat sep l)
  = list_sum (map (count_char c) l) + (List.length l - 1) * count_char c sep.
Proof.
  induction l as [|x l IH]; [reflexivity|].
  destruct l as [|y l].
  - cbn. lia.
  - change (String.concat sep (x :: y :: l)) with (x ++ sep ++ String.concat sep (y :: l)).
    rewrite !count_char_app, IH. cbn [map list_sum List.length].
    replace (S (S (List.length l)) - 1) with (S (S (List.length l) - 1)) by lia.
    cbn [Nat.mul]. unfold list_sum. cbn [fold_right].
    generalize ((S (List.length l) - 1) * count_char c sep). intros n. lia.
Qed.

Lemma serialize_count (c : ascii) (sp : list (string * string)) :
  c = "&"%char \/ c = "="%char ->
  count_char c (serialize sp)
  = if Ascii.eqb c "=" then List.length sp else List.length sp - 1.
Proof.
  intros Hc. unfold serialize. rewrite count_char_concat, length_map, map_map.
  assert (E : forall kv : string * string,
             count_char c (urlencode (fst kv) ++ "=" ++ urlencode (snd kv))
             = if Ascii.eqb c "=" then 1 else 0).
  { intros kv. rewrite !count_char_app, !urlencode_no_separator by assumption.
    destruct Hc as [-> | ->]; reflexivity. }
  rewrite (map_ext _ _ E). clear E.
  destruct Hc as [-> | ->].
  - change (Ascii.eqb "&" "=") with false. change (count_char "&" "&") with 1.
    cbv iota. unfold list_sum.
    induction sp as [|kv sp IH]; cbn [map fold_right List.length] in *; lia.
  - change (Ascii.eqb "=" "=") with true. change (count_char "=" "&") with 0.
    cbv iota. unfold list_sum.
    induction sp as [|kv sp IH]; cbn [map fold_right List.length] in *; lia.
Qed.

(** The parameters [api.pipeline] sets, one filter after the other. *)
Lemma pipeline_params_members (params : Filters) (k v : string) :
  In (k, v) (pipeline_params params)
  <-> (k = "client_id"
       /\ exists id, flt_client_id params = Some id /\ id <> 0%Z
                     /\ v = string_of_int id)
      \/ (k = "recruiter_id"
          /\ exists id, flt_recruiter_id params = Some id /\ id <> 0%Z
                        /\ v = string_of_int id)
      \/ (k = "status" /\ exists st, flt_status params = Some st /\ v = status_text st)
      \/ (k = "search" /\ flt_search params = Some v /\ v <> "").
Proof.
  assert (Hid : forall key field,
             In (k, v) (match field with
                        | Some id =>
                            if truthy_id (Some id) then [(key, string_of_int id)] else []
                        | None => []
                        end)
             <-> k = key /\ exists id : Z, field = Some id /\ id <> 0%Z
                                           /\ v = string_of_int id).
  { intros key [id|]; cbn [truthy_id].
    - destruct (Z.eqb_spec id 0) as [->|Hne]; cbn; split.
      + intros [].
      + intros (_ & id' & [= <-] & Hne & _). congruence.
      + intros [[= <- <-]|[]]. eauto.
      + intros (-> & id' & [= <-] & _ & ->). now left.
    - cbn. split; [intros []|intros (_ & id' & Hid & _); discriminate Hid]. }
  unfold pipeline_params. rewrite !in_app_iff, !Hid.
  assert (Hst : In (k, v) (match flt_status params with
                           | Some s => [("status", status_text s)]
                           | None => []
                           end)
                <-> k = "status"
                    /\ exists st, flt_status params = Some st /\ v = status_text st).
  { destruct (flt_status params) as [st|]; cbn; split.
    - intros [[= <- <-]|[]]. eauto.
    - intros (-> & st' & [= <-] & ->). now left.
    - intros [].
    - intros (_ & st' & Hs & _). discriminate Hs. }
  assert (Hse : In (k, v) (match flt_search params with
                           | Some s => if JS.truthy_string s then [("search", s)] else []
                           | None => []
                           end)
                <-> k = "search" /\ flt_search params = Some v /\ v <> "").
  { destruct (flt_search params) as [[|c se]|]; cbn; split.
    - intros [].
    - intros (_ & [= <-] & Hne). congruence.
    - intros [[= <- <-]|[]]. repeat split. discriminate.
    - intros (-> & [= <-] & _). now left.
    - intros [].
    - intros (_ & Hs & _). discriminate Hs. }
  rewrite Hst, Hse. tauto.
Qed.

Lemma pipeline_params_keys (params : Filters) :
  exists keep,
    map fst (pipeline_params params)
    = filter keep ["client_id"; "recruiter_id"; "status"; "search"].
Proof.
  exists (fun k => existsb (String.eqb k) (map fst (pipeline_params params))).
  unfold pipeline_params.
  destruct (flt_client_id params) as [c|]; cbn [truthy_id];
    [destruct (c =? 0)%Z|];
    (destruct (flt_recruiter_id params) as [r|]; cbn [truthy_id];
     [destruct (r =? 0)%Z|]);
    destruct (flt_status params) as [st|];
    destruct (flt_search params) as [[|ch se]|]; reflexivity.
Qed.

Lemma pipeline_params_nil (params : Filters) :
  pipeline_params params = []
  <-> (flt_client_id params = None \/ flt_client_id params = Some 0%Z)
      /\ (flt_recruiter_id params = None \/ flt_recruiter_id params = Some 0%Z)
      /\ flt_status params = None
      /\ (flt_search params = None \/ flt_search params = Some "").
Proof.
  unfold pipeline_params.
  destruct (flt_client_id params) as [c|]; cbn [truthy_id];
    [destruct (Z.eqb_spec c 0) as [->|Hc]|];
    (destruct (flt_recruiter_id params) as [r|]; cbn [truthy_id];
     [destruct (Z.eqb_spec r 0) as [->|Hr]|]);
    destruct (flt_status params) as [st|];
    destruct (flt_search params) as [[|ch se]|]; cbn;
    (split; [try discriminate; intros _; repeat split; auto
            |try reflexivity;
             intros (H1 & H2 & H3 & H4);
             try discriminate H3;
             try (destruct H1 as [H1|H1]; [discriminate H1|congruence]);
             try (destruct H2 as [H2|H2]; [discriminate H2|congruence]);
             try (destruct H4 as [H4|H4]; discriminate H4)]).
Qed.

(** X2: [api.pipeline] sends a parameter for each filter that is truthy and
    for no other: client_id and recruiter_id for an id that is not zero,
    with the text of the number, status for a chosen status, with its name,
    and search for a text that is not empty, as it is; each key at most once,
    in this order.  The path is /pipeline alone when no filter is truthy and
    /pipeline? followed by the serialized parameters otherwise; whatever the
    search text holds, its encoding is made of letters, digits and the
    characters * - . _ + percent only, so the query string has one = per
    filter sent and one ampersand between two of them: a filter value cannot
    add or split a parameter. *)
Theorem pipeline_path_separators (params : Filters) :
  (forall v, In ("client_id", v) (pipeline_params params)
             <-> exists id, flt_client_id params = Some id /\ id <> 0%Z
                            /\ v = string_of_int id)
  /\ (forall v, In ("recruiter_id", v) (pipeline_params params)
                <-> exists id, flt_recruiter_id params = Some id /\ id <> 0%Z
                               /\ v = string_of_int id)
  /\ (forall v, In ("status", v) (pipeline_params params)
                <-> exists st, flt_status params = Some st /\ v = status_text st)
  /\ (forall v, In ("search", v) (pipeline_params params)
                <-> flt_search params = Some v /\ v <> "")
  /\ (exists keep,
         map fst (pipeline_params params)
         = filter keep ["client_id"; "recruiter_id"; "status"; "search"])
  /\ (pipeline_params params = []
      <-> (flt_client_id params = None \/ flt_client_id params = Some 0%Z)
          /\ (flt_recruiter_id params = None \/ flt_recruiter_id params = Some 0%Z)
          /\ flt_status params = None
          /\ (flt_search params = None \/ flt_search params = Some ""))
  /\ (pipeline_params params = [] -> pipeline_path params = "/pipeline")
  /\ (pipeline_params params <> [] ->
      pipeline_path params = "/pipeline?" ++ serialize (pipeline_params params))
  /\ count_char "=" (serialize (pipeline_params params))
     = List.length (pipeline_params params)
  /\ count_char "&" (serialize (pipeline_params params))
     = List.length (pipeline_params params) - 1
  /\ (forall s x, In x (list_ascii_of_string (urlencode s)) ->
                  unreserved x = true \/ x = "+"%char \/ x = "%"%char).
Proof.
  split; [|split; [|split; [|split; [|split; [|split;
    [|split; [|split; [|split; [|split]]]]]]]]].
  - intros v. rewrite pipeline_params_members. split.
    + intros [(_ & H)|[(H & _)|[(H & _)|(H & _)]]]; [exact H|discriminate H..].
    + intros H. left. now split.
  - intros v. rewrite pipeline_params_members. split.
    + intros [(H & _)|[(_ & H)|[(H & _)|(H & _)]]]; [|exact H|..]; discriminate H.
    + intros H. right. left. now split.
  - intros v. rewrite pipeline_params_members. split.
    + intros [(H & _)|[(H & _)|[(_ & H)|(H & _)]]]; [| |exact H|]; discriminate H.
    + intros H. right. right. left. now split.
  - intros v. rewrite pipeline_params_members. split.
    + intros [(H & _)|[(H & _)|[(H & _)|(_ & H)]]]; [| | |exact H]; discriminate H.
    + intros H. right. right. right. now split.
  - apply pipeline_params_keys.
  - apply pipeline_params_nil.
  - unfold pipeline_path. now intros ->.
  - intros Hne. unfold pipeline_path.
    destruct (serialize (pipeline_params params)) eqn:E; [|reflexivity].
    pose proof (serialize_count "=" (pipeline_params params) (or_intror eq_refl)) as H.
    rewrite E in H. cbn in H.
    destruct (pipeline_params params); [congruence|discriminate H].
  - now rewrite serialize_count by now right.
  - now rewrite serialize_count by now left.
  - exact urlencode_safe.
Qed.

(** All four filters, with a search text that holds an ampersand and an
    equals sign. *)
Lemma pipeline_path_separators_witness :
  pipeline_path
    (mkFilters (Some 3%Z) (Some 7%Z) (Some Store.InProcess) (Some "a&b=c d"))
  = "/pipeline?client_id=3&recruiter_id=7&status=in_process&search=a%26b%3Dc+d".
Proof.
  destruct (pipeline_path_separators
              (mkFilters (Some 3%Z) (Some 7%Z) (Some Store.InProcess)
                         (Some "a&b=c d")))
    as (_ & _ & _ & _ & _ & _ & _ & H & _).
  rewrite H; [reflexivity|discriminate].
Defined.

End QueryString.

(** ** The stored token *)

Section SessionToken.
Import Web Session.

Lemma or_else_truthy (a b : option string) :
  truthy a = true -> or_else a b = a.
Proof. unfold or_else. now intros ->. Qed.

Lemma truthy_Some (t : string) : JS.truthy_string t = true -> truthy (Some t) = true.
Proof. now intros H. Qed.

Lemma token_placed (s : State) (u : AuthUser) (t : string) :
  authUser s = Some u -> getToken (browser s) = Some t ->
  JS.truthy_string t = true ->
  getItem (localStorage (browser (placeToken s))) TOKEN_KEY
  = (if rememberUser s then Some t else None)
  /\ getItem (sessionStorage (browser (placeToken s))) TOKEN_KEY
     = (if rememberUser s then None else Some t).
Proof.
  intros Hu Ht Htr. unfold placeToken. rewrite Hu, Ht, Htr.
  destruct (rememberUser s); cbn [browser localStorage sessionStorage];
    rewrite getItem_setItem, getItem_removeItem; auto.
Qed.

(** X3: for a logged-in user with a stored token, the effect on the
    remember-me flag keeps the token readable and leaves it in exactly one
    storage: local storage when the user is remembered, session storage
    otherwise. *)
Theorem token_kept_in_one_storage (s : State) (u : AuthUser) (t : string) :
  authUser s = Some u -> getToken (browser s) = Some t ->
  JS.truthy_string t = true ->
  getToken (browser (placeToken s)) = Some t
  /\ getItem (localStorage (browser (placeToken s))) TOKEN_KEY
     = (if rememberUser s then Some t else None)
  /\ getItem (sessionStorage (browser (placeToken s))) TOKEN_KEY
     = (if rememberUser s then None else Some t).
Proof.
  intros Hu Ht Htr. destruct (token_placed s u t Hu Ht Htr) as [Hl Hs].
  split; [|split; assumption].
  unfold getToken. rewrite Hl, Hs. destruct (rememberUser s).
  - apply or_else_truthy. now apply truthy_Some.
  - reflexivity.
Qed.

(** The sample session, not remembered: the token moves to session
    storage. *)
Lemma token_kept_in_one_storage_witness :
  browser (placeToken (Sample2.logged_in false))
  = mkBrowser [] [(TOKEN_KEY, "abc")]
  /\ getToken (browser (placeToken (Sample2.logged_in false))) = Some "abc".
Proof.
  split; [reflexivity|].
  apply (token_kept_in_one_storage (Sample2.logged_in false) Sample2.olena_user "abc");
    reflexivity.
Defined.

(** X4: a confirmed logout forgets the user and removes the token from
    local storage only.  After the token was placed by the remember-me
    effect, a remembered session leaves no token behind, while a session
    that is not remembered leaves its token readable in session storage. *)
Theorem logout_clears_local_storage_only (s : State) (u : AuthUser) (t : string) :
  authUser s = Some u -> getToken (browser s) = Some t ->
  JS.truthy_string t = true ->
  authUser (handleLogout true (placeToken s)) = None
  /\ sessionStorage (browser (handleLogout true (placeToken s)))
     = sessionStorage (browser (placeToken s))
  /\ getToken (browser (handleLogout true (placeToken s)))
     = (if rememberUser s then None else Some t)
  /\ handleLogout false s = s.
Proof.
  intros Hu Ht Htr.
  destruct (token_placed s u t Hu Ht Htr) as [_ Hs].
  split; [reflexivity|]. split; [reflexivity|]. split; [|reflexivity].
  unfold handleLogout. cbn [negb browser localStorage sessionStorage].
  unfold getToken. cbn [localStorage sessionStorage].
  rewrite getItem_removeItem, Hs. unfold or_else. cbn [truthy].
  destruct (rememberUser s); reflexivity.
Qed.

(** The sample session, not remembered, logged out: the token is still
    read from session storage. *)
Lemma logout_clears_local_storage_only_witness :
  getToken (browser (handleLogout true (placeToken (Sample2.logged_in false))))
  = Some "abc"
  /\ getToken (browser (handleLogout true (placeToken (Sample2.logged_in true))))
     = None.
Proof.
  split.
  - apply (logout_clears_local_storage_only (Sample2.logged_in false)
             Sample2.olena_user "abc"); reflexivity.
  - apply (logout_clears_local_storage_only (Sample2.logged_in true)
             Sample2.olena_user "abc"); reflexivity.
Defined.

(** X5: the token is dropped from both storages when the page is left
    without remember-me (with it, nothing changes) and when the server
    refuses it at start-up; and without a stored token the start-up sends
    no request: storage and user stay as they are whatever the server
    would answer. *)
Theorem token_dropped (s : State) (me : string -> option AuthUser) :
  (rememberUser s = false -> getToken (browser (beforeunload s)) = None)
  /\ (rememberUser s = true -> beforeunload s = s)
  /\ (forall t, getToken (browser s) = Some t -> JS.truthy_string t = true ->
                me t = None ->
                getToken (browser (bootstrap me s)) = None
                /\ authUser (bootstrap me s) = authUser s)
  /\ (truthy (getToken (browser s)) = false ->
      browser (bootstrap me s) = browser s
      /\ authUser (bootstrap me s) = authUser s).
Proof.
  split; [|split; [|split]].
  - intros Hr. unfold beforeunload. rewrite Hr. cbn [browser].
    unfold getToken. cbn [localStorage sessionStorage].
    now rewrite !getItem_removeItem.
  - intros Hr. unfold beforeunload. now rewrite Hr.
  - intros t Ht Htr Hme. unfold bootstrap. rewrite Ht, Htr, Hme. cbn [browser authUser].
    unfold getToken. cbn [localStorage sessionStorage].
    now rewrite !getItem_removeItem.
  - intros Hno. unfold bootstrap. destruct (getToken (browser s)) as [t|]; [|now split].
    cbn in Hno. rewrite Hno. now split.
Qed.

(** The sample session left without remember-me. *)
Lemma token_dropped_witness :
  getToken (browser (beforeunload (Sample2.logged_in false))) = None.
Proof.
  apply (token_dropped (Sample2.logged_in false) (fun _ => None)). reflexivity.
Defined.

(** X6: logging in with a blank user name or an empty password shows the
    message and sends nothing (storage and user stay as they are, whatever
    the server would answer); otherwise the server is asked with the
    trimmed user name: on success the user is set, the form is cleared and
    the token is written to local storage, from where the requests that
    follow read it, also after the remember-me effect has placed it; on
    failure storage and user stay as they are and a message that is not
    empty is shown. *)
Theorem login_outcomes (login : string -> string -> string + (string * AuthUser))
    (s : State) :
  let f := loginForm s in
  let s' := handleLogin login s in
  (JS.truthy_string (trim (lf_username f)) = false \/ lf_password f = "" ->
   loginError s' = Some msg_login /\ browser s' = browser s
   /\ authUser s' = authUser s)
  /\ (JS.truthy_string (trim (lf_username f)) = true -> lf_password f <> "" ->
      (forall t u,
          login (trim (lf_username f)) (lf_password f) = inr (t, u) ->
          authUser s' = Some u /\ loginForm s' = mkLoginForm "" ""
          /\ loginError s' = None
          /\ getItem (localStorage (browser s')) TOKEN_KEY = Some t
          /\ (JS.truthy_string t = true ->
              getToken (browser s') = Some t
              /\ getToken (browser (placeToken s')) = Some t))
      /\ (forall m,
             login (trim (lf_username f)) (lf_password f) = inl m ->
             browser s' = browser s /\ authUser s' = authUser s
             /\ exists e, loginError s' = Some e /\ e <> "")).
Proof.
  intros f s'. subst s'. unfold handleLogin. fold f. split.
  - intros Hbad.
    assert (E : negb (JS.truthy_string (trim (lf_username f)))
                || negb (JS.truthy_string (lf_password f)) = true).
    { destruct Hbad as [-> | ->]; [reflexivity|]. apply orb_true_r. }
    rewrite E. cbn. auto.
  - intros Hname Hpass. rewrite Hname.
    assert (Hp : JS.truthy_string (lf_password f) = true).
    { destruct (lf_password f); [congruence|reflexivity]. }
    rewrite Hp. cbn [negb orb]. split.
    + intros t u ->. cbn [authUser loginForm loginError browser localStorage].
      rewrite getItem_setItem. do 4 (split; [reflexivity|]).
      intros Htr.
      assert (Hg : getToken
                     (mkBrowser (setItem (localStorage (browser s)) TOKEN_KEY t)
                                (sessionStorage (browser s))) = Some t).
      { unfold getToken. cbn [localStorage sessionStorage]. rewrite getItem_setItem.
        apply or_else_truthy. now apply truthy_Some. }
      split; [exact Hg|].
      match goal with
      | |- getToken (browser (placeToken ?st)) = _ =>
          destruct (token_placed st u t eq_refl Hg Htr) as [Hl Hs];
          unfold getToken; rewrite Hl, Hs
      end.
      cbn [rememberUser]. destruct (rememberUser s).
      * apply or_else_truthy. now apply truthy_Some.
      * reflexivity.
    + intros m ->. cbn [authUser loginError browser]. repeat split.
      eexists. split; [reflexivity|]. unfold error_text.
      destruct m; [discriminate|cbn; discriminate].
Qed.

(** The sample login: the user name is sent trimmed and the token abc is
    stored. *)
Lemma login_outcomes_witness :
  getToken (browser (handleLogin Sample2.accept Sample2.at_login)) = Some "abc".
Proof.
  destruct (login_outcomes Sample2.accept Sample2.at_login) as [_ H].
  destruct (H eq_refl) as [Hok _]; [discriminate|].
  destruct (Hok "abc" Sample2.olena_user eq_refl) as (_ & _ & _ & _ & Ht).
  now destruct (Ht eq_refl).
Defined.

(** X7: the remember-me flag and the theme survive a reload: the flag read
    at start-up is the flag the effect wrote, and the theme read at start-up
    is the theme the effect wrote, whatever the system prefers; writing
    either leaves the stored token as it is. *)
Theorem settings_survive_reload (s : State) (t : Theme) (b : Browser)
    (prefersDark : bool) :
  initRemember (browser (persistRemember s)) = rememberUser s
  /\ initTheme (persistTheme t b) prefersDark = t
  /\ getToken (browser (persistRemember s)) = getToken (browser s)
  /\ getToken (persistTheme t b) = getToken b.
Proof.
  split; [|split; [|split]].
  - unfold initRemember, persistRemember. cbn [browser localStorage].
    rewrite getItem_setItem. now destruct (rememberUser s).
  - unfold initTheme, persistTheme. cbn [localStorage].
    rewrite getItem_setItem. now destruct t.
  - unfold getToken, persistRemember. cbn [browser localStorage sessionStorage].
    now rewrite getItem_setItem_other by discriminate.
  - unfold getToken, persistTheme. cbn [localStorage sessionStorage].
    now rewrite getItem_setItem_other by discriminate.
Qed.

(** X8: whatever local storage holds and however it is read as a number,
    the text zoom starts between 80 and 140; a stored number in that range
    is taken as it is. *)
Theorem text_zoom_in_range (toNumber : string -> float) (b : Browser) :
  PrimFloat.leb 80 (initTextZoom toNumber b) = true
  /\ PrimFloat.leb (initTextZoom toNumber b) 140 = true
  /\ (forall v, getItem (localStorage b) TEXT_ZOOM_KEY = Some v ->
                JS.truthy_string v = true ->
                JS.is_finite (toNumber v) = true ->
                PrimFloat.leb 80 (toNumber v) = true ->
                PrimFloat.leb (toNumber v) 140 = true ->
                initTextZoom toNumber b = toNumber v).
Proof.
  unfold initTextZoom.
  set (stored := toNumber _).
  split; [|split].
  - destruct (JS.is_finite stored); cbn [andb]; [|reflexivity].
    destruct (PrimFloat.leb 80 stored) eqn:E; cbn [andb]; [|reflexivity].
    destruct (PrimFloat.leb stored 140); [exact E|reflexivity].
  - destruct (JS.is_finite stored); cbn [andb]; [|reflexivity].
    destruct (PrimFloat.leb 80 stored); cbn [andb]; [|reflexivity].
    destruct (PrimFloat.leb stored 140) eqn:E; [exact E|reflexivity].
  - intros v Hv Htr Hf H1 H2. subst stored. rewrite Hv.
    unfold or_else. cbn [truthy]. rewrite Htr. now rewrite Hf, H1, H2.
Qed.

(** A stored zoom of 120, read by a reader that knows this one text. *)
Lemma text_zoom_in_range_witness :
  initTextZoom (fun v => if String.eqb v "120" then 120%float else nan)
    (mkBrowser [(TEXT_ZOOM_KEY, "120")] [])
  = 120%float.
Proof.
  destruct (text_zoom_in_range
              (fun v => if String.eqb v "120" then 120%float else nan)
              (mkBrowser [(TEXT_ZOOM_KEY, "120")] [])) as (_ & _ & H).
  apply (H "120"); reflexivity.
Defined.

End SessionToken.

(** ** Trimming and the falsy defaults *)

Section Normalised.
Import Forms.

Lemma drop_spaces_spec (backwards : bool) (n : nat) (l : list ascii) :
  List.length l <= n ->
  begins_with_space backwards (drop_spaces backwards l) = false
  /\ exists p, l = (p ++ drop_spaces backwards l)%list.
Proof.
  revert l. induction n as [|n IH]; intros l Hn.
  - destruct l; [|cbn in Hn; lia]. split; [reflexivity|now exists []].
  - destruct l as [|a l1]; [split; [reflexivity|now exists []]|].
    cbn [List.length] in Hn. cbn [drop_spaces].
    destruct (is_space a) eqn:Ea.
    { destruct (IH l1) as [H [p Hp]]; [lia|]. split; [exact H|].
      exists (a :: p). cbn. now rewrite <- Hp. }
    destruct l1 as [|b l2].
    { split; [cbn; now rewrite Ea|now exists []]. }
    cbn [List.length] in Hn.
    destruct (if backwards then space2 b a else space2 a b) eqn:Eb.
    { destruct (IH l2) as [H [p Hp]]; [lia|]. split; [exact H|].
      exists (a :: b :: p). cbn. now rewrite <- Hp. }
    destruct l2 as [|c l3].
    { split; [cbn; now rewrite Ea, Eb|now exists []]. }
    cbn [List.length] in Hn.
    destruct (if backwards then space3 c b a else space3 a b c) eqn:Ec.
    { destruct (IH l3) as [H [p Hp]]; [lia|]. split; [exact H|].
      exists (a :: b :: c :: p). cbn. now rewrite <- Hp. }
    split; [cbn; now rewrite Ea, Eb, Ec|now exists []].
Qed.

Lemma drop_spaces_begins (backwards : bool) (l : list ascii) :
  begins_with_space backwards (drop_spaces backwards l) = false.
Proof. apply (drop_spaces_spec backwards (List.length l) l). lia. Qed.

Lemma drop_spaces_suffix (backwards : bool) (l : list ascii) :
  exists p, l = (p ++ drop_spaces backwards l)%list.
Proof. apply (drop_spaces_spec backwards (List.length l) l). lia. Qed.

(** A text that does not begin with white space has no beginning that
    does. *)
Lemma begins_with_space_app (backwards : bool) (l t : list ascii) :
  begins_with_space backwards (l ++ t)%list = false ->
  begins_with_space backwards l = false.
Proof.
  destruct l as [|a [|b [|c l]]]; cbn [app begins_with_space]; try reflexivity.
  - destruct (is_space a); [|now rewrite orb_false_r]. cbn. destruct t; discriminate.
  - destruct (is_space a); cbn [orb]; [now intros|].
    destruct (if backwards then space2 b a else space2 a b); cbn [orb]; [now intros|].
    reflexivity.
  - now intros.
Qed.

(** What [trim] gives has no white space at its ends. *)
Lemma trim_trimmed (s : string) : trimmed (trim s).
Proof.
  unfold trim, trimmed. rewrite list_ascii_of_string_of_list_ascii.
  set (m := drop_spaces false (list_ascii_of_string s)).
  split.
  - destruct (drop_spaces_suffix true (rev m)) as [p Hp].
    apply (f_equal (@rev ascii)) in Hp. rewrite rev_involutive, rev_app_distr in Hp.
    apply (begins_with_space_app false _ (rev p)). rewrite <- Hp.
    apply drop_spaces_begins.
  - rewrite rev_involutive. apply drop_spaces_begins.
Qed.

Lemma or_null_not_empty (s : string) : or_null s <> Some "".
Proof. unfold or_null. destruct s; cbn; discriminate. Qed.

Lemma or_zero_not_nan (x : float) : PrimFloat.is_nan (or_zero x) = false.
Proof.
  unfold or_zero, JS.truthy_number.
  destruct (PrimFloat.is_zero x); cbn; [reflexivity|].
  destruct (PrimFloat.is_nan x) eqn:E; cbn; [reflexivity|exact E].
Qed.

Lemma truthy_id_nonzero (o : option Z) :
  truthy_id o = true -> number_of_id o <> 0%Z.
Proof.
  destruct o as [n|]; cbn; [|discriminate].
  intros H ->. discriminate H.
Qed.

Lemma truthy_string_not_empty (s : string) : JS.truthy_string s = true -> s <> "".
Proof. now destruct s. Qed.

End Normalised.

(** ** The add form *)

Section AddForm.
Import Forms.

Lemma change_keeps_vacancy_of_client (vacancies : list Vacancy) (f : AddForm)
    (c : Change) :
  vacancy_of_client vacancies f -> offered vacancies f c ->
  vacancy_of_client vacancies (change vacancies f c).
Proof.
  intros Hinv Hoff. destruct c as [value|[id|]|paid]; unfold vacancy_of_client;
    cbn [change with_vacancy f_client_id f_vacancy_id truthy_id].
  - discriminate.
  - intros Hc _. destruct Hoff as (v & Hv & Hid).
    unfold filteredVacancies in Hv. rewrite Hc in Hv. cbn [negb] in Hv.
    apply filter_In in Hv as [Hin Hcl].
    exists v. repeat split; try assumption. cbn. now apply Z.eqb_eq.
  - discriminate.
  - exact Hinv.
Qed.

(** X9: in the add form the selected vacancy is always a vacancy of the
    selected client: starting from a form where this holds (the blank form
    is one), it holds after any sequence of picking a client, picking one
    of the vacancies the select offers, and ticking the paid box, the list
    of vacancies staying the same. *)
Theorem selected_vacancy_of_selected_client (vacancies : list Vacancy)
    (cs : list Change) (f : AddForm) :
  vacancy_of_client vacancies f -> offered_all vacancies f cs ->
  vacancy_of_client vacancies (fold_left (change vacancies) cs f).
Proof.
  revert f. induction cs as [|c cs IH]; intros f Hinv Hoff; [exact Hinv|].
  destruct Hoff as [Hc Hcs]. cbn [fold_left]. apply IH; [|exact Hcs].
  now apply change_keeps_vacancy_of_client.
Qed.

(** On the blank form: the client Acme, then its vacancy, then the paid
    box. *)
Lemma selected_vacancy_of_selected_client_witness :
  vacancy_of_client [welder; Sample2.driver]
    (fold_left (change [welder; Sample2.driver])
       [PickClient (Some 1%Z); PickVacancy (Some 1%Z); TickPaid true]
       Sample2.blank).
Proof.
  apply selected_vacancy_of_selected_client.
  - intros H. discriminate H.
  - cbn. repeat split. exists welder. split; [now left|reflexivity].
Defined.

Lemma selectedVacancy_with (vacancies : list Vacancy) (f : AddForm)
    (paid : bool) (amount : float) :
  selectedVacancy vacancies
    (with_vacancy f (f_client_id f) (f_vacancy_id f) paid amount)
  = selectedVacancy vacancies f.
Proof. reflexivity. Qed.

(** X10: the effect that fills the payment amount from the fee of the
    selected vacancy only fills an empty amount: a form that is not marked
    paid, or whose amount is a number other than zero, is left as it is;
    an empty amount of a paid form gets the fee (zero when the fee is
    empty); and running the effect again changes nothing more. *)
Theorem auto_amount_fills_once (vacancies : list Vacancy) (f : AddForm) :
  autoAmount vacancies (autoAmount vacancies f) = autoAmount vacancies f
  /\ (JS.truthy_number (f_payment_amount f) = true -> autoAmount vacancies f = f)
  /\ (f_paid f = false -> autoAmount vacancies f = f)
  /\ (forall v, selectedVacancy vacancies f = Some v -> f_paid f = true ->
                JS.truthy_number (f_payment_amount f) = false ->
                f_payment_amount (autoAmount vacancies f) = or_zero (v_fee_amount v)).
Proof.
  split; [|split; [|split]].
  - unfold autoAmount at 2 3.
    destruct (selectedVacancy vacancies f) as [v|] eqn:S;
      [|unfold autoAmount; now rewrite S].
    match goal with
    | |- context [if ?c then _ else _] => destruct c eqn:C
    end; [|unfold autoAmount; now rewrite S, C].
    unfold autoAmount. rewrite selectedVacancy_with, S.
    cbn [with_vacancy f_paid f_payment_amount f_client_id f_vacancy_id].
    match goal with
    | |- context [if ?c then _ else _] => destruct c
    end; reflexivity.
  - intros Ht. unfold autoAmount.
    destruct (selectedVacancy vacancies f); [|reflexivity].
    rewrite Ht. unfold JS.truthy_number in Ht.
    apply negb_true_iff, orb_false_iff in Ht as [Hz _].
    assert (Hz' : PrimFloat.eqb (f_payment_amount f) 0 = false) by exact Hz.
    rewrite Hz'. cbn. now rewrite andb_false_r.
  - intros Hp. unfold autoAmount. rewrite Hp.
    destruct (selectedVacancy vacancies f); reflexivity.
  - intros v S Hp Ht. unfold autoAmount. rewrite S, Hp, Ht. reflexivity.
Qed.

(** A paid form with the welder vacancy and no amount gets its fee of
    1000. *)
Lemma auto_amount_fills_once_witness :
  f_payment_amount
    (autoAmount [welder]
       (with_vacancy Sample2.blank (Some 1%Z) (Some 1%Z) true 0%float))
  = 1000%float.
Proof.
  destruct (auto_amount_fills_once [welder]
              (with_vacancy Sample2.blank (Some 1%Z) (Some 1%Z) true 0%float))
    as (_ & _ & _ & H).
  rewrite (H welder); reflexivity.
Defined.

(** X11: the requests of a submit that passes the validation are
    normalised: the candidate name is not empty and has no white space at
    its ends; phone, email, notes and replacement note are null or not
    empty; vacancy and recruiter ids are not zero, and a replacement id is
    null or not zero; the payment amount is never NaN; and an application
    marked paid carries its payment date. *)
Theorem submit_payloads_normalised (f : AddForm) (candidate_id : Z) :
  validate_add f = None ->
  let c := candidate_payload f in
  let a := application_payload f candidate_id in
  cc_full_name c <> "" /\ trimmed (cc_full_name c)
  /\ cc_phone c <> Some "" /\ cc_email c <> Some "" /\ cc_notes c <> Some ""
  /\ ac_vacancy_id a <> 0%Z /\ ac_recruiter_id a <> 0%Z
  /\ ac_replacement_of_id a <> Some 0%Z
  /\ ac_replacement_note a <> Some ""
  /\ PrimFloat.is_nan (ac_payment_amount a) = false
  /\ (ac_paid a = true -> ac_paid_date a <> None).
Proof.
  intros Hv c a. apply validate_add_None in Hv as (Hn & Hvac & Hrec & _ & _ & Hpaid).
  subst c a. unfold candidate_payload, application_payload.
  cbn [cc_full_name cc_phone cc_email cc_notes ac_vacancy_id ac_recruiter_id
       ac_replacement_of_id ac_replacement_note ac_payment_amount ac_paid
       ac_paid_date].
  split; [now apply truthy_string_not_empty|]. split; [apply trim_trimmed|].
  do 3 (split; [apply or_null_not_empty|]).
  split; [now apply truthy_id_nonzero|]. split; [now apply truthy_id_nonzero|].
  split.
  { destruct (f_replacement_of_id f) as [n|]; cbn; [|discriminate].
    destruct (Z.eqb_spec n 0); cbn; congruence. }
  split; [apply or_null_not_empty|]. split; [apply or_zero_not_nan|exact Hpaid].
Qed.

(** The sample form of a rejected candidate with its date. *)
Lemma submit_payloads_normalised_witness :
  cc_full_name (candidate_payload (addForm (ui accepted_world))) = "Petro Bondar"
  /\ ac_vacancy_id (application_payload (addForm (ui accepted_world)) 1) <> 0%Z.
Proof.
  split; [reflexivity|].
  apply (submit_payloads_normalised (addForm (ui accepted_world)) 1). reflexivity.
Defined.

(** X12: the recruiter lock of a non-admin account survives a submit: the
    blank form that replaces the add form after a successful submit has the
    recruiter the lock effect sets, the lock effect changes nothing when
    applied again, and it leaves the form of an admin alone. *)
Theorem recruiter_lock_survives_reset (u : UI) (today : Date) :
  (forall usr, authUser u = Some usr -> u_role usr = RoleUser ->
               f_recruiter_id (blank_form u today)
               = f_recruiter_id (addForm (lockRecruiter u)))
  /\ lockRecruiter (lockRecruiter u) = lockRecruiter u
  /\ (forall usr, authUser u = Some usr -> u_role usr = RoleAdmin ->
                  lockRecruiter u = u
                  /\ f_recruiter_id (blank_form u today) = None).
Proof.
  split; [|split].
  - intros usr Hu Hr. unfold blank_form, lockRecruiter. rewrite Hu, Hr. reflexivity.
  - unfold lockRecruiter. destruct (authUser u) as [usr|] eqn:Hu; [|now rewrite Hu].
    destruct (u_role usr) eqn:Hr; [now rewrite Hu, Hr|].
    cbn [authUser setAddForm]. rewrite Hu, Hr. reflexivity.
  - intros usr Hu Hr. unfold blank_form, lockRecruiter. rewrite Hu, Hr. now split.
Qed.

(** The add form of the user bound to recruiter 1, blank after a
    submit. *)
Lemma recruiter_lock_survives_reset_witness :
  f_recruiter_id
    (blank_form (mkUI (Some Sample2.olena_user) no_filters [] Sample2.blank false
                      None [] empty_pay_form None false) today)
  = Some 1%Z.
Proof.
  destruct (recruiter_lock_survives_reset
              (mkUI (Some Sample2.olena_user) no_filters [] Sample2.blank false
                    None [] empty_pay_form None false) today) as [H _].
  rewrite (H Sample2.olena_user); reflexivity.
Defined.

End AddForm.

(** ** The user and vacancy forms *)

Section MasterData.
Import Forms.

(** X13: every request the users tab sends to create or save a user binds
    a recruiter exactly to the non-admin role: an admin goes with a null
    recruiter and a user with a recruiter id that is not zero; the user
    name sent is not empty and has no white space at its ends; a new user
    carries a password that is not empty, and a saved user carries either
    no password (it is left out when the field is empty) or one that is not
    empty. *)
Theorem user_requests_bind_recruiter_to_role (u : UserForm) (p : UserPayload) :
  createUser_request u = inr p \/ saveEditUser_request u = inr p ->
  (up_role p = RoleAdmin <-> up_recruiter_id p = None)
  /\ (up_role p = RoleUser -> exists n, up_recruiter_id p = Some n /\ n <> 0%Z)
  /\ up_username p <> "" /\ trimmed (up_username p)
  /\ up_password p <> Some ""
  /\ (createUser_request u = inr p -> exists pw, up_password p = Some pw /\ pw <> "").
Proof.
  intros H.
  assert (Hcommon :
            JS.truthy_string (trim (uf_username u)) = true
            /\ (is_admin (uf_role u) = false -> truthy_id (uf_recruiter_id u) = true)
            /\ up_username p = trim (uf_username u)
            /\ up_role p = uf_role u
            /\ up_recruiter_id p
               = (if is_admin (uf_role u) then None
                  else Some (number_of_id (uf_recruiter_id u)))
            /\ up_password p <> Some ""
            /\ (createUser_request u = inr p ->
                exists pw, up_password p = Some pw /\ pw <> "")).
  { destruct H as [H|H].
    - unfold createUser_request in H |- *.
      destruct (JS.truthy_string (trim (uf_username u))); [|discriminate H].
      destruct (JS.truthy_string (uf_password u)) eqn:Hp; [|discriminate H].
      cbn [negb orb] in H |- *.
      destruct (is_admin (uf_role u)) eqn:Ha; cbn [negb andb] in H |- *.
      + injection H as <-. cbn. repeat split; try discriminate.
        * intros [= E]. rewrite E in Hp. discriminate Hp.
        * intros _. eexists. split; [reflexivity|]. now apply truthy_string_not_empty.
      + destruct (truthy_id (uf_recruiter_id u)) eqn:Hr; [|discriminate H].
        cbn [negb] in H |- *. injection H as <-. cbn. repeat split.
        * intros [= E]. rewrite E in Hp. discriminate Hp.
        * intros _. eexists. split; [reflexivity|]. now apply truthy_string_not_empty.
    - unfold saveEditUser_request in H.
      destruct (JS.truthy_string (trim (uf_username u))) eqn:Hu; [|discriminate H].
      cbn [negb] in H.
      destruct (is_admin (uf_role u)) eqn:Ha; cbn [negb andb] in H.
      + injection H as <-. cbn. repeat split; try discriminate.
        * apply or_null_not_empty.
        * unfold createUser_request. rewrite Hu. cbn [negb orb].
          destruct (JS.truthy_string (uf_password u)) eqn:Hp; cbn [negb orb].
          -- rewrite Ha. cbn [negb andb]. intros _. unfold or_null. rewrite Hp.
             eexists. split; [reflexivity|]. now apply truthy_string_not_empty.
          -- discriminate.
      + destruct (truthy_id (uf_recruiter_id u)) eqn:Hr; [|discriminate H].
        cbn [negb] in H. injection H as <-. cbn. repeat split.
        * apply or_null_not_empty.
        * unfold createUser_request. rewrite Hu. cbn [negb orb].
          destruct (JS.truthy_string (uf_password u)) eqn:Hp; cbn [negb orb].
          -- rewrite Ha, Hr. cbn [negb andb]. intros _. unfold or_null. rewrite Hp.
             eexists. split; [reflexivity|]. now apply truthy_string_not_empty.
          -- discriminate. }
  destruct Hcommon as (Hn & Hrec & -> & -> & -> & Hpw & Hnew).
  split; [|split; [|split; [|split; [|split]]]].
  - destruct (uf_role u); cbn; split; try reflexivity; discriminate.
  - destruct (uf_role u); cbn; [discriminate|]. intros _.
    eexists. split; [reflexivity|]. apply truthy_id_nonzero. now apply Hrec.
  - now apply truthy_string_not_empty.
  - apply trim_trimmed.
  - exact Hpw.
  - exact Hnew.
Qed.

(** The sample user form: the name goes out trimmed, bound to
    recruiter 1. *)
Lemma user_requests_bind_recruiter_to_role_witness :
  createUser_request Sample2.new_user
  = inr (mkUserPayload "olena" (Some "secret") RoleUser (Some 1%Z))
  /\ up_recruiter_id (mkUserPayload "olena" (Some "secret") RoleUser (Some 1%Z))
     <> None.
Proof.
  split; [reflexivity|].
  destruct (user_requests_bind_recruiter_to_role Sample2.new_user
              (mkUserPayload "olena" (Some "secret") RoleUser (Some 1%Z))
              (or_introl eq_refl)) as (_ & H & _).
  destruct (H eq_refl) as (n & -> & _). discriminate.
Defined.

(** X14: adding a vacancy with a blank title or without a client does
    nothing at all (no message, no request), while saving one shows a
    message for each; a vacancy request that is sent has a title that is
    not empty and has no white space at its ends, a client id that is not
    zero, a fee that is never NaN, and a city that is null or a text that is
    not empty and has no white space at its ends. *)
Theorem vacancy_requests_normalised (v : VacancyForm) :
  (forall m, addVacancy_attempt v <> Refused m)
  /\ (JS.truthy_string (trim (vf_title v)) = false ->
      addVacancy_attempt v = Nothing
      /\ saveEditVacancy_attempt true v = Refused msg_vacancy_title)
  /\ (JS.truthy_string (trim (vf_title v)) = true ->
      truthy_id (vf_client_id v) = false ->
      addVacancy_attempt v = Nothing
      /\ saveEditVacancy_attempt true v = Refused msg_vacancy_client)
  /\ (forall p,
         addVacancy_attempt v = Sent p \/ saveEditVacancy_attempt true v = Sent p ->
         vp_title p <> "" /\ trimmed (vp_title p) /\ vp_client_id p <> 0%Z
         /\ PrimFloat.is_nan (vp_fee_amount p) = false
         /\ vp_city p <> Some ""
         /\ (forall c, vp_city p = Some c -> trimmed c)).
Proof.
  unfold addVacancy_attempt, saveEditVacancy_attempt. cbn [negb].
  split; [|split; [|split]].
  - intros m. destruct (_ || _); discriminate.
  - intros ->. now split.
  - intros -> ->. now split.
  - intros p H.
    assert (E : JS.truthy_string (trim (vf_title v)) = true
                /\ truthy_id (vf_client_id v) = true /\ p = vacancy_payload v).
    { destruct (JS.truthy_string (trim (vf_title v))),
        (truthy_id (vf_client_id v)); cbn in H;
        destruct H as [H|H]; try discriminate H; injection H as <-; auto. }
    destruct E as (Ht & Hc & ->). unfold vacancy_payload.
    cbn [vp_title vp_client_id vp_fee_amount vp_city].
    split; [now apply truthy_string_not_empty|]. split; [apply trim_trimmed|].
    split; [now apply truthy_id_nonzero|]. split; [apply or_zero_not_nan|].
    split; [apply or_null_not_empty|].
    intros c Hcity. unfold or_null in Hcity.
    destruct (JS.truthy_string (trim (vf_city v))); [|discriminate Hcity].
    injection Hcity as <-. apply trim_trimmed.
Qed.

(** The sample vacancy form: title and city go out trimmed. *)
Lemma vacancy_requests_normalised_witness :
  addVacancy_attempt Sample2.new_vacancy
  = Sent (mkVacancyPayload 1 "Welder" 1000%float (Some "Kyiv"))
  /\ vp_client_id (mkVacancyPayload 1 "Welder" 1000%float (Some "Kyiv")) <> 0%Z.
Proof.
  split; [reflexivity|].
  destruct (vacancy_requests_normalised Sample2.new_vacancy) as (_ & _ & _ & H).
  apply (H (mkVacancyPayload 1 "Welder" 1000%float (Some "Kyiv"))).
  left. reflexivity.
Defined.

End MasterData.

(** ** The replacement selector on short lists *)

Section ReplacementAll.

(** X15: on a pipeline of at most 500 rows the replacement selector offers
    every row: the options are the whole list, and the id of every row is
    among the values that can be chosen. *)
Theorem replacement_options_all_when_short (pipeline : list PipelineRow) :
  List.length pipeline <= 500 ->
  replacementOptions pipeline = pipeline
  /\ forall r, In r pipeline -> In (Some (row_id r)) (replacement_choices pipeline).
Proof.
  intros Hlen.
  assert (E : replacementOptions pipeline = pipeline)
    by (unfold replacementOptions; now apply firstn_all2).
  split; [exact E|]. intros r Hr. unfold replacement_choices. rewrite E.
  right. apply in_map_iff. now exists r.
Qed.

(** The sample row of Ivan in a pipeline of one. *)
Lemma replacement_options_all_when_short_witness :
  In (Some 1%Z) (replacement_choices [ivan_row]).
Proof.
  destruct (replacement_options_all_when_short [ivan_row]) as [_ H]; [cbn; lia|].
  apply (H ivan_row). now left.
Defined.

End ReplacementAll.

(** ** The two CSV exports of the front end *)

Section CsvExports.
Import Csv CsvRows.

Lemma mem_In (k : string) (l : list string) : mem k l = true <-> In k l.
Proof.
  unfold mem. rewrite existsb_exists. split.
  - intros (x & Hx & E). apply String.eqb_eq in E. now subst.
  - intros H. exists k. split; [assumption|apply String.eqb_refl].
Qed.

(** Keys that the set already holds leave it as it is. *)
Lemma fold_set_add_absorb (l acc : list string) :
  (forall k, In k l -> In k acc) -> fold_left set_add l acc = acc.
Proof.
  induction l as [|k l IH]; intros H; cbn [fold_left]; [reflexivity|].
  unfold set_add at 2. rewrite (proj2 (mem_In k acc)) by (apply H; now left).
  apply IH. intros k' Hk'. apply H. now right.
Qed.

Lemma first_occurrences_id (l : list string) : NoDup l -> first_occurrences l = l.
Proof.
  induction 1 as [|a l Ha _ IH]; cbn [first_occurrences]; [reflexivity|].
  rewrite IH. f_equal. clear IH. induction l as [|b l IH]; cbn [filter]; [reflexivity|].
  destruct (String.eqb_spec b a) as [->|_]; cbn [negb].
  - exfalso. apply Ha. now left.
  - f_equal. apply IH. intros H. apply Ha. now right.
Qed.

(** Rows that all have the same keys give those keys as the columns. *)
Lemma collect_columns_uniform (cols : list string) (rows : list row) :
  rows <> [] -> NoDup cols -> (forall r, In r rows -> keys r = cols) ->
  collect_columns rows = cols.
Proof.
  intros Hne Hnd Hk. unfold collect_columns. destruct rows as [|r rows]; [congruence|].
  cbn [fold_left]. rewrite (Hk r) by now left.
  rewrite fold_set_add. cbn [app]. rewrite first_occurrences_id by assumption.
  replace (filter (fun k => negb (mem k [])) cols) with cols
    by (clear; induction cols as [|c cols IH]; [reflexivity|];
        change (c :: cols = c :: filter (fun k => negb (mem k [])) cols);
        now rewrite <- IH).
  assert (Hrest : forall r', In r' rows -> keys r' = cols)
    by (intros r' Hr'; apply Hk; now right).
  clear Hk Hne. induction rows as [|r' rows IH]; cbn [fold_left]; [reflexivity|].
  rewrite (Hrest r') by now left. rewrite fold_set_add_absorb by auto.
  apply IH. intros r'' Hr''. apply Hrest. now right.
Qed.

(** A row read at its own keys gives its values in order. *)
Lemma get_own_keys (proto r : row) :
  NoDup (keys r) -> map (get proto r) (keys r) = map snd r.
Proof.
  unfold get. induction r as [|[k v] r IH]; cbn [keys map fst snd own]; [reflexivity|].
  intros Hnd. apply NoDup_cons_iff in Hnd as [Hk Hnd].
  rewrite String.eqb_refl. f_equal. rewrite <- (IH Hnd). apply map_ext_in.
  intros c Hc. destruct (String.eqb_spec k c) as [->|_]; [contradiction|reflexivity].
Qed.

(** The file written for rows that all have the same keys: the keys, then
    for every row its values, escaped, in the order the row holds them. *)
Lemma uniform_file (proto : row) (cols : list string) (rows : list row) :
  rows <> [] -> NoDup cols -> (forall r, In r rows -> keys r = cols) ->
  downloadCSV proto rows
  = String.concat (String newline "")
      (String.concat ";" cols
       :: map (fun r => String.concat ";" (map (fun kv => escape (snd kv)) r)) rows).
Proof.
  intros Hne Hnd Hk. unfold downloadCSV.
  rewrite (collect_columns_uniform cols) by assumption.
  do 2 f_equal. apply map_ext_in. intros r Hr. unfold line. f_equal.
  rewrite <- (map_map (get proto r) escape), <- (Hk r Hr).
  rewrite get_own_keys by (rewrite (Hk r Hr); exact Hnd).
  now rewrite map_map.
Qed.

(** Reading a written export back, its columns being free of quotes,
    newlines and semicolons. *)
Lemma downloadCSV_read (proto : row) (rows : list row) :
  (forall k, In k (collect_columns rows) -> plain k = true) ->
  parse_csv (downloadCSV proto rows)
  = as_read (collect_columns rows)
    :: map (fun r => as_read (map (fun c => text_of (get proto r c))
                                  (collect_columns rows)))
           rows.
Proof.
  intros Hkeys. unfold downloadCSV. generalize dependent (collect_columns rows).
  intros cols Hkeys.
  replace (String.concat ";" cols :: map (line proto cols) rows)
    with (map (String.concat ";")
              (cols :: map (fun r => map (fun c => escape (get proto r c)) cols) rows))
    by (cbn [map]; now rewrite map_map).
  rewrite (scan_table _ (cols :: map (fun r => map (fun c => text_of (get proto r c)) cols)
                                     rows)).
  - cbn [map]. now rewrite map_map.
  - constructor.
    + induction cols as [|k cols IH]; constructor.
      * left. split; [reflexivity|]. apply Hkeys. now left.
      * apply IH. intros k' Hk'. apply Hkeys. now right.
    + clear Hkeys. induction rows as [|r rows IH]; cbn [map]; constructor; [|exact IH].
      clear IH. induction cols as [|c cols IHc]; cbn [map]; constructor; [|exact IHc].
      apply escape_renders.
  - discriminate.
Qed.

(** An export of rows that all have the same keys reads back as the keys
    followed by the texts of the values of every row. *)
Lemma uniform_export (proto : row) (cols : list string) (rows : list row) :
  rows <> [] -> cols <> [] -> NoDup cols ->
  (forall k, In k cols -> plain k = true) ->
  (forall r, In r rows -> keys r = cols) ->
  parse_csv (downloadCSV proto rows)
  = cols :: map (fun r => map (fun kv => text_of (snd kv)) r) rows.
Proof.
  intros Hrows Hcols Hnd Hplain Hk.
  assert (E : collect_columns rows = cols) by now apply collect_columns_uniform.
  rewrite downloadCSV_read by (rewrite E; exact Hplain).
  rewrite E. f_equal.
  - destruct cols; [congruence|reflexivity].
  - apply map_ext_in. intros r Hr.
    rewrite <- (map_map (get proto r) text_of), <- (Hk r Hr).
    rewrite get_own_keys by (rewrite (Hk r Hr); exact Hnd).
    rewrite map_map. destruct r as [|kv r].
    + specialize (Hk [] Hr). cbn in Hk. congruence.
    + reflexivity.
Qed.

Lemma NoDup_decide (l : list string) : first_occurrences l = l -> NoDup l.
Proof. intros <-. apply first_occurrences_NoDup. Qed.

(** X16: the file of the pipeline export is the line of the fifteen fixed
    columns followed by one line per pipeline row, in the order of the
    pipeline, holding the escaped values of the row; read back by a reader
    of semicolon-delimited files with quoted fields it gives the header and
    one record of fifteen fields per row, whatever the names and the note
    hold (semicolons, quotes, newlines): a date that is not set and a
    missing replacement read back as empty fields and the two flags as yes
    or no.  For an empty pipeline the file is empty: it has no header. *)
Theorem pipeline_export_reads_back (proto : row) (pipeline : list PipelineRow) :
  (pipeline <> [] ->
   exportPipeline proto pipeline
   = String.concat (String newline "")
       (String.concat ";" pipeline_columns
        :: map (fun p => String.concat ";"
                           (map (fun kv => escape (snd kv)) (pipeline_export_row p)))
               pipeline))
  /\ (pipeline <> [] ->
   parse_csv (exportPipeline proto pipeline)
   = pipeline_columns
     :: map (fun p => map (fun kv => text_of (snd kv)) (pipeline_export_row p)) pipeline)
  /\ (pipeline <> [] ->
      Forall (fun record => List.length record = 15) (parse_csv (exportPipeline proto pipeline))
      /\ List.length (parse_csv (exportPipeline proto pipeline)) = S (List.length pipeline))
  /\ (forall p,
        In p pipeline ->
        nth 5 (map (fun kv => text_of (snd kv)) (pipeline_export_row p)) "-"
        = match row_date_contacted p with Some d => date_text d | None => "" end
        /\ nth 9 (map (fun kv => text_of (snd kv)) (pipeline_export_row p)) "-"
           = (if row_paid p then "yes" else "no")
        /\ (row_replacement_of_id p = None ->
            nth 13 (map (fun kv => text_of (snd kv)) (pipeline_export_row p)) "-" = ""))
  /\ (pipeline = [] -> exportPipeline proto pipeline = "").
Proof.
  assert (Hread : pipeline <> [] ->
     parse_csv (exportPipeline proto pipeline)
     = pipeline_columns
       :: map (fun p => map (fun kv => text_of (snd kv)) (pipeline_export_row p))
              pipeline).
  { intros Hne. unfold exportPipeline.
    rewrite (uniform_export proto pipeline_columns).
    - now rewrite map_map.
    - destruct pipeline; [congruence|discriminate].
    - discriminate.
    - apply NoDup_decide. reflexivity.
    - intros k Hk. cbn in Hk.
      repeat (destruct Hk as [<-|Hk]; [reflexivity|]). contradiction.
    - intros r Hr. apply in_map_iff in Hr as (p & <- & _). reflexivity. }
  split.
  { intros Hne. unfold exportPipeline. rewrite (uniform_file proto pipeline_columns).
    - now rewrite map_map.
    - destruct pipeline; [congruence|discriminate].
    - apply NoDup_decide. reflexivity.
    - intros r Hr. apply in_map_iff in Hr as (p & <- & _). reflexivity. }
  split; [exact Hread|]. split; [|split].
  - intros Hne. rewrite (Hread Hne). split.
    + constructor; [reflexivity|]. apply Forall_map, Forall_forall.
      intros p _. reflexivity.
    + cbn [List.length]. now rewrite length_map.
  - intros p _. split; [|split].
    + cbn. now destruct (row_date_contacted p).
    + cbn. now destruct (row_paid p).
    + intros E. cbn. now rewrite E.
  - intros ->. reflexivity.
Qed.

(** The export of the sample row of Ivan has a header and one record. *)
Lemma pipeline_export_reads_back_witness :
  List.length (parse_csv (exportPipeline object_prototype [ivan_row])) = 2.
Proof.
  destruct (pipeline_export_reads_back object_prototype [ivan_row]) as (_ & H & _).
  rewrite H; [reflexivity|discriminate].
Defined.

(** X17: the file of the earnings export is the line paid_date; amount;
    candidate; client; vacancy; recruiter; application_id; payment_id
    followed by one line per report line, in the order of the report,
    holding the escaped values of the line; read back by a reader of
    semicolon-delimited files with quoted fields it gives the header and
    one record per report line: the names read back as they are, whatever
    they hold, and the amount as the plain text of the number, not in the
    money format of the screen.  For an empty report the file is empty: it
    has no header. *)
Theorem earnings_export_reads_back (proto : row) (repItems : list ReportLine) :
  (repItems <> [] ->
   exportEarnings proto repItems
   = String.concat (String newline "")
       (String.concat ";" earnings_columns
        :: map (fun it => String.concat ";"
                            (map (fun kv => escape (snd kv)) (earnings_export_row it)))
               repItems))
  /\ (repItems <> [] ->
   parse_csv (exportEarnings proto repItems)
   = earnings_columns
     :: map (fun it =>
               [date_text (l_paid_date it);
                JS.numberToString (l_amount it);
                l_candidate_name it;
                l_client_name it;
                l_vacancy_title it;
                l_recruiter_name it;
                JS.numberToString (number_of_int (l_application_id it));
                JS.numberToString (number_of_int (l_payment_id it))])
            repItems)
  /\ (repItems = [] -> exportEarnings proto repItems = "").
Proof.
  split; [|split].
  - intros Hne. unfold exportEarnings. rewrite (uniform_file proto earnings_columns).
    + now rewrite map_map.
    + destruct repItems; [congruence|discriminate].
    + apply NoDup_decide. reflexivity.
    + intros r Hr. apply in_map_iff in Hr as (it & <- & _). reflexivity.
  - intros Hne. unfold exportEarnings.
    rewrite (uniform_export proto earnings_columns).
    + now rewrite map_map.
    + destruct repItems; [congruence|discriminate].
    + discriminate.
    + apply NoDup_decide. reflexivity.
    + intros k Hk. cbn in Hk.
      repeat (destruct Hk as [<-|Hk]; [reflexivity|]). contradiction.
    + intros r Hr. apply in_map_iff in Hr as (it & <- & _). reflexivity.
  - intros ->. reflexivity.
Qed.

(** The export of the sample line: the name with a semicolon reads back
    as it is. *)
Lemma earnings_export_reads_back_witness :
  nth 2 (nth 1 (parse_csv (exportEarnings object_prototype [Sample2.ivan_line])) []) ""
  = "Petrenko; Ivan".
Proof.
  destruct (earnings_export_reads_back object_prototype [Sample2.ivan_line]) as (_ & H & _).
  rewrite H; [reflexivity|discriminate].
Defined.

End CsvExports.
